(** * SPI RAM dual/quad bridge ([rtl/spi_ram_dual.py])

    A shallow embedding of the command formatter [_format_cmd], of the
    construction-time checks of [SpiRamDualQuad.__init__] and of the
    cycle-stepped sequencer it builds, followed by the properties of the
    design that were checked against it. *)

From Stdlib Require Import ZArith Lia Bool List String.
From stdpp Require Import base gmap strings.
Import ListNotations.
Local Open Scope Z_scope.

(** ** Opcodes (module-level constants of the source) *)

Definition _FAST_READ : Z := 0x0b.
Definition _DIOFR : Z := 0xbb.
Definition _QIOFR : Z := 0xeb.

Definition _WRITE : Z := 0x02.
Definition _QIOW : Z := 0x38.

(** ** The command formatter *)

(** [range(n)] of Python, on [Z]. *)
Definition range (n : nat) : list Z := map Z.of_nat (seq 0 n).

(** One iteration of the loop of [_format_cmd]:
    [if not (cmd>>b)%2: c &= ~(1<<(b*spi_width))]. *)
Definition format_cmd_body (cmd spi_width c b : Z) : Z :=
  if (Z.shiftr cmd b) mod 2 =? 0
  then Z.land c (Z.lnot (Z.shiftl 1 (b * spi_width)))
  else c.

(** [_format_cmd(cmd, spi_width)]: [c] starts at [2**(8*spi_width)-1] and
    the loop runs over [range(8)]. *)
Definition _format_cmd (cmd spi_width : Z) : Z :=
  fold_left (format_cmd_body cmd spi_width) (range 8) (2 ^ (8 * spi_width) - 1).

(** ** Construction *)

(** The two ways [__init__] can raise before the logic is built. *)
Inductive error : Type :=
| AssertionError
| KeyError.

(** What [__init__] fixes once and for all. *)
Record config : Type := Config {
  spi_width : Z;
  wbone_width : Z;
  read_cmd : Z;
  cmd_width : Z;
  write_cmd : Z;
  addr_width : Z;
  sr_width : Z;
  dummy : Z;
  endianness : string
}.

(** [wishbone.Interface()] is built with litex's defaults: a 32-bit data
    path ([len(bus.dat_r)]) and a 30-bit word address. *)
Definition wishbone_data_width : Z := 32.
Definition wishbone_adr_width : Z := 30.

Definition read_cmd_params : gmap Z (Z * Z) :=
  {[ 4 := (_format_cmd _QIOFR 4, 4 * 8);
     2 := (_format_cmd _DIOFR 2, 2 * 8);
     1 := (_format_cmd _FAST_READ 1, 1 * 8) ]}.

Definition write_cmd_params : gmap Z Z :=
  {[ 4 := _format_cmd _QIOW 4;
     1 := _format_cmd _WRITE 1 ]}.

(** [SpiRamDualQuad.__init__(pads_1, pads_2, dummy, endianness)], up to the
    point where every parameter of the sequencer is known.  [len1] and
    [len2] are [len(pads_1.dq)] and [len(pads_2.dq)]; a failed [assert]
    and a missing dictionary key raise. *)
Definition construct (len1 len2 : Z) (dummy : Z) (endianness : string)
  : error + config :=
  let spi_width := len1 in
  if negb (2 <=? spi_width) then inl AssertionError
  else if negb (len1 =? len2) then inl AssertionError
  else
    let wbone_width := wishbone_data_width in
    match read_cmd_params !! spi_width with
    | None => inl KeyError
    | Some (read_cmd, cmd_width) =>
        match write_cmd_params !! spi_width with
        | None => inl KeyError
        | Some write_cmd =>
            let addr_width := 24 in
            inr {| spi_width := spi_width;
                   wbone_width := wbone_width;
                   read_cmd := read_cmd;
                   cmd_width := cmd_width;
                   write_cmd := write_cmd;
                   addr_width := addr_width;
                   sr_width := Z.max (Z.max cmd_width addr_width) wbone_width;
                   dummy := dummy;
                   endianness := endianness |}
        end
    end.

(** ** Signals *)

(** The states of [self.submodules.fsm], in the order of their [fsm.act];
    the first one, [IDLE], is the reset state. *)
Inductive fsm_state : Type :=
| IDLE
| SEND_CMD
| SEND_ADDR
| SEND_DATA
| RECV_DATA_DUMMY
| RECV_DATA
| WAIT_SEND_MORE
| WAIT_RECV_MORE.

(** The registers: the FSM state and the targets of [self.sync] and of
    [NextValue]. *)
Record regs : Type := Regs {
  state : fsm_state;
  cycle_counter : Z;   (* Signal(5, reset_less=True) *)
  is_write : bool;     (* Signal() *)
  next_addr : Z;       (* Signal(32) *)
  sr : Z               (* Signal(max(cmd_width, addr_width, wbone_width)) *)
}.

(** What the sequencer reads in a cycle: the Wishbone request and the two
    tristate inputs. *)
Record inputs : Type := Inputs {
  bus_cyc : bool;
  bus_stb : bool;
  bus_we : bool;
  bus_adr : Z;
  bus_dat_w : Z;
  dq1_i : Z;
  dq2_i : Z
}.

(** What the statements of a state drive in a cycle: the combinatorial
    signals, and the requests of [NextState] and [NextValue] that the
    clock edge commits. *)
Record signals : Type := Signals {
  cs_n : bool;
  clk : bool;                  (* true: [clk.eq(ClockSignal())] *)
  dq_oe : bool;
  gang_outputs : bool;
  bus_ack : bool;
  cycle_counter_reset : bool;
  cycle_counter_ce : bool;
  nx_state : option fsm_state;
  nv_sr : option Z;
  nv_is_write : option bool;
  nv_next_addr : option Z
}.

(** Undriven combinatorial signals sit at their reset value: 1 for
    [cs_n = Signal(reset=1)], 0 for the others; nothing is requested. *)
Definition undriven : signals :=
  Signals true false false false false false false None None None None.

(** ** Statements *)

Definition stmt : Type := signals -> signals.

Definition cs_n_eq (v : bool) : stmt := fun d =>
  Signals v (clk d) (dq_oe d) (gang_outputs d) (bus_ack d)
    (cycle_counter_reset d) (cycle_counter_ce d)
    (nx_state d) (nv_sr d) (nv_is_write d) (nv_next_addr d).

Definition clk_eq (v : bool) : stmt := fun d =>
  Signals (cs_n d) v (dq_oe d) (gang_outputs d) (bus_ack d)
    (cycle_counter_reset d) (cycle_counter_ce d)
    (nx_state d) (nv_sr d) (nv_is_write d) (nv_next_addr d).

Definition dq_oe_eq (v : bool) : stmt := fun d =>
  Signals (cs_n d) (clk d) v (gang_outputs d) (bus_ack d)
    (cycle_counter_reset d) (cycle_counter_ce d)
    (nx_state d) (nv_sr d) (nv_is_write d) (nv_next_addr d).

Definition gang_outputs_eq (v : bool) : stmt := fun d =>
  Signals (cs_n d) (clk d) (dq_oe d) v (bus_ack d)
    (cycle_counter_reset d) (cycle_counter_ce d)
    (nx_state d) (nv_sr d) (nv_is_write d) (nv_next_addr d).

Definition bus_ack_eq (v : bool) : stmt := fun d =>
  Signals (cs_n d) (clk d) (dq_oe d) (gang_outputs d) v
    (cycle_counter_reset d) (cycle_counter_ce d)
    (nx_state d) (nv_sr d) (nv_is_write d) (nv_next_addr d).

Definition cycle_counter_reset_eq (v : bool) : stmt := fun d =>
  Signals (cs_n d) (clk d) (dq_oe d) (gang_outputs d) (bus_ack d)
    v (cycle_counter_ce d)
    (nx_state d) (nv_sr d) (nv_is_write d) (nv_next_addr d).

Definition cycle_counter_ce_eq (v : bool) : stmt := fun d =>
  Signals (cs_n d) (clk d) (dq_oe d) (gang_outputs d) (bus_ack d)
    (cycle_counter_reset d) v
    (nx_state d) (nv_sr d) (nv_is_write d) (nv_next_addr d).

Definition NextState (s : fsm_state) : stmt := fun d =>
  Signals (cs_n d) (clk d) (dq_oe d) (gang_outputs d) (bus_ack d)
    (cycle_counter_reset d) (cycle_counter_ce d)
    (Some s) (nv_sr d) (nv_is_write d) (nv_next_addr d).

Definition NextValue_sr (v : Z) : stmt := fun d =>
  Signals (cs_n d) (clk d) (dq_oe d) (gang_outputs d) (bus_ack d)
    (cycle_counter_reset d) (cycle_counter_ce d)
    (nx_state d) (Some v) (nv_is_write d) (nv_next_addr d).

Definition NextValue_is_write (v : bool) : stmt := fun d =>
  Signals (cs_n d) (clk d) (dq_oe d) (gang_outputs d) (bus_ack d)
    (cycle_counter_reset d) (cycle_counter_ce d)
    (nx_state d) (nv_sr d) (Some v) (nv_next_addr d).

Definition NextValue_next_addr (v : Z) : stmt := fun d =>
  Signals (cs_n d) (clk d) (dq_oe d) (gang_outputs d) (bus_ack d)
    (cycle_counter_reset d) (cycle_counter_ce d)
    (nx_state d) (nv_sr d) (nv_is_write d) (Some v).

(** Statements take effect in order, a later assignment to a signal
    overriding an earlier one. *)
Definition exec_stmts (l : list stmt) (d : signals) : signals :=
  fold_left (fun d s => s d) l d.

Definition If (c : bool) (l : list stmt) : stmt := fun d =>
  if c then exec_stmts l d else d.

Definition IfElse (c : bool) (l1 l2 : list stmt) : stmt := fun d =>
  if c then exec_stmts l1 d else exec_stmts l2 d.

(** ** Bit vectors *)

(** Assignment to a [width]-bit signal keeps the low [width] bits. *)
Definition trunc (width v : Z) : Z := v mod 2 ^ width.

(** [Cat(...)]: the operands, given with their widths, least significant
    first. *)
Fixpoint Cat (l : list (Z * Z)) : Z :=
  match l with
  | [] => 0
  | (width, v) :: l' => Z.lor (trunc width v) (Z.shiftl (Cat l') width)
  end.

(** [s[lo:hi]] for [0 <= lo <= hi]. *)
Definition slice (v lo hi : Z) : Z := trunc (hi - lo) (Z.shiftr v lo).

(** [reverse_bytes(s)] of litex, for a signal of [width] bits:
    the concatenation, least significant first, of the slices
    [s[i*8:min((i+1)*8, len(s))]] for [i] in [reversed(range(n))], with
    [n = (len(s)+7)//8]. *)
Definition reverse_bytes (width v : Z) : Z :=
  let n := (width + 7) / 8 in
  Cat (map (fun i => (Z.min ((i + 1) * 8) width - i * 8,
                      slice v (i * 8) (Z.min ((i + 1) * 8) width)))
           (rev (range (Z.to_nat n)))).

(** ** The sequencer *)

Section Sequencer.

Variable cfg : config.

(** The body of [fsm.act(st, ...)], read in the registers [r] and the
    inputs [i] of the cycle. *)
Definition act (r : regs) (i : inputs) (st : fsm_state) : list stmt :=
  match st with
  | IDLE =>
      [ cycle_counter_reset_eq true;
        If (bus_cyc i && bus_stb i)
          [ NextState SEND_CMD;
            IfElse (bus_we i)
              [ NextValue_sr (write_cmd cfg) ]
              [ NextValue_sr (read_cmd cfg) ] ] ]
  | SEND_CMD =>
      [ cycle_counter_ce_eq true;
        dq_oe_eq true;
        cs_n_eq false;
        clk_eq true;
        gang_outputs_eq true;
        NextValue_is_write (bus_we i);
        NextValue_sr
          (Cat [ (cmd_width cfg - wbone_width cfg + spi_width cfg, 0);
                 (sr_width cfg, sr r) ]);
        If (cycle_counter r =? cmd_width cfg / spi_width cfg - 1)
          [ cycle_counter_reset_eq true;
            NextValue_sr (Z.shiftl (bus_adr i) 1);
            NextValue_next_addr (bus_adr i + 1);
            NextState SEND_ADDR ] ]
  | SEND_ADDR =>
      [ cycle_counter_ce_eq true;
        dq_oe_eq true;
        cs_n_eq false;
        clk_eq true;
        gang_outputs_eq true;
        NextValue_sr
          (Cat [ (cmd_width cfg - wbone_width cfg + spi_width cfg, 0);
                 (sr_width cfg, sr r) ]);
        If (cycle_counter r =? addr_width cfg / spi_width cfg - 1)
          [ cycle_counter_reset_eq true;
            IfElse (is_write r)
              [ NextState SEND_DATA;
                NextValue_sr (bus_dat_w i) ]
              [ NextState RECV_DATA_DUMMY ] ] ]
  | SEND_DATA =>
      [ cycle_counter_ce_eq true;
        dq_oe_eq true;
        cs_n_eq false;
        clk_eq true;
        NextValue_sr
          (Cat [ (cmd_width cfg - wbone_width cfg + spi_width cfg * 2, 0);
                 (sr_width cfg, sr r) ]);
        If (cycle_counter r =? wbone_width cfg / spi_width cfg / 2 - 1)
          [ cycle_counter_reset_eq true;
            NextState WAIT_SEND_MORE;
            bus_ack_eq true ] ]
  | RECV_DATA_DUMMY =>
      [ cycle_counter_ce_eq true;
        dq_oe_eq false;
        cs_n_eq false;
        clk_eq true;
        If (cycle_counter r =? dummy cfg)
          [ cycle_counter_reset_eq true;
            NextState RECV_DATA ] ]
  | RECV_DATA =>
      [ cycle_counter_ce_eq true;
        dq_oe_eq false;
        cs_n_eq false;
        clk_eq true;
        NextValue_sr
          (Cat [ (spi_width cfg, dq1_i i);
                 (spi_width cfg, dq2_i i);
                 (sr_width cfg - spi_width cfg * 2,
                  slice (sr r) 0 (sr_width cfg - spi_width cfg * 2)) ]);
        If (cycle_counter r =? wbone_width cfg / spi_width cfg / 2)
          [ cycle_counter_reset_eq true;
            NextState WAIT_RECV_MORE;
            bus_ack_eq true ] ]
  | WAIT_SEND_MORE =>
      [ cs_n_eq false;
        If (bus_cyc i && bus_stb i)
          [ NextState IDLE;
            If (bus_adr i =? next_addr r)
              [ If (bus_we i)
                  [ NextValue_next_addr (bus_adr i + 1);
                    NextState SEND_DATA ] ] ] ]
  | WAIT_RECV_MORE =>
      [ cs_n_eq false;
        If (bus_cyc i && bus_stb i)
          [ NextState IDLE;
            If (bus_adr i =? next_addr r)
              [ If (negb (bus_we i))
                  [ NextValue_next_addr (bus_adr i + 1);
                    NextState RECV_DATA ] ] ] ]
  end.

(** The signals of a cycle: the statements of the current state, over
    the undriven values. *)
Definition comb (r : regs) (i : inputs) : signals :=
  exec_stmts (act r i (state r)) undriven.

(** The clock edge: the FSM takes the requested state, the [NextValue]
    targets their requested values, cut to their widths, and
    [self.sync] updates the 5-bit cycle counter. *)
Definition tick (r : regs) (i : inputs) : regs :=
  let d := comb r i in
  {| state := default (state r) (nx_state d);
     cycle_counter :=
       if cycle_counter_reset d then 0
       else if cycle_counter_ce d then trunc 5 (cycle_counter r + 1)
       else cycle_counter r;
     is_write := default (is_write r) (nv_is_write d);
     next_addr :=
       match nv_next_addr d with
       | Some v => trunc 32 v
       | None => next_addr r
       end;
     sr :=
       match nv_sr d with
       | Some v => trunc (sr_width cfg) v
       | None => sr r
       end |}.

(** The combinatorial outputs that are not part of the FSM:
    [dq1.o.eq(sr[-spi_width:])], the [If(gang_outputs, ...)] on [dq2.o],
    and [bus.dat_r]. *)
Definition dq1_o (r : regs) : Z :=
  slice (sr r) (sr_width cfg - spi_width cfg) (sr_width cfg).

Definition dq2_o (r : regs) (i : inputs) : Z :=
  if gang_outputs (comb r i)
  then slice (sr r) (sr_width cfg - spi_width cfg) (sr_width cfg)
  else slice (sr r) (sr_width cfg - spi_width cfg * 2)
                    (sr_width cfg - spi_width cfg).

Definition bus_dat_r (r : regs) : Z :=
  if String.eqb (endianness cfg) "big" then sr r
  else reverse_bytes (sr_width cfg) (sr r).

(** The registers after [n] cycles from [r], the inputs of cycle [t]
    being [env t]. *)
Fixpoint run (env : nat -> inputs) (r : regs) (n : nat) : regs :=
  match n with
  | O => r
  | S k => tick (run env r k) (env k)
  end.

(** What an observer of the bus and of the FSM sees in cycle [t]. *)
Definition ack_at (env : nat -> inputs) (r : regs) (t : nat) : bool :=
  bus_ack (comb (run env r t) (env t)).

Definition observe (env : nat -> inputs) (r : regs) (t : nat)
  : fsm_state * bool :=
  (state (run env r t), ack_at env r t).

(** The observations of the [n] cycles from cycle [t0] on. *)
Definition trace (env : nat -> inputs) (r : regs) (t0 n : nat)
  : list (fsm_state * bool) :=
  map (observe env r) (seq t0 n).

(** The first cycle from [t] on, among [fuel] of them, in which the
    acknowledgment is asserted. *)
Fixpoint first_ack (env : nat -> inputs) (r : regs) (fuel t : nat)
  : option nat :=
  match fuel with
  | O => None
  | S fuel' =>
      if ack_at env r t then Some t else first_ack env r fuel' (S t)
  end.

End Sequencer.

(** The registers out of reset.  [cycle_counter] is [reset_less]: it holds
    any 5-bit value [c0]. *)
Definition reset_regs (c0 : Z) : regs :=
  {| state := IDLE; cycle_counter := c0; is_write := false;
     next_addr := 0; sr := 0 |}.

(** Signals within their declared widths. *)
Definition regs_ok (cfg : config) (r : regs) : Prop :=
  0 <= cycle_counter r < 2 ^ 5 /\
  0 <= next_addr r < 2 ^ 32 /\
  0 <= sr r < 2 ^ sr_width cfg.

Definition inputs_ok (cfg : config) (i : inputs) : Prop :=
  0 <= bus_adr i < 2 ^ wishbone_adr_width /\
  0 <= bus_dat_w i < 2 ^ wishbone_data_width /\
  0 <= dq1_i i < 2 ^ spi_width cfg /\
  0 <= dq2_i i < 2 ^ spi_width cfg.

(** A request is pending: [bus.cyc & bus.stb]. *)
Definition pending (i : inputs) : bool := bus_cyc i && bus_stb i.

(** A request on the bus: strobe, direction, address, write data. *)
Definition request (we : bool) (adr dat_w : Z) : inputs :=
  Inputs true true we adr dat_w 0 0.

Definition no_request : inputs := Inputs false false false 0 0 0 0.

(** The sequencer that [__init__] builds when it builds one. *)
Definition quad_config (dummy : Z) (endianness : string) : config :=
  {| spi_width := 4; wbone_width := 32;
     read_cmd := 0xfffefeff; cmd_width := 32;
     write_cmd := 0xeefffeee; addr_width := 24;
     sr_width := 32; dummy := dummy; endianness := endianness |}.

(** [Cat(Signal(k), sr)] stored back into [sr]: the register moves up by
    [k] bits, zeros coming in at the bottom. *)
Definition shifted (cfg : config) (k : Z) (r : regs) : Z :=
  trunc (sr_width cfg) (Cat [ (k, 0); (sr_width cfg, sr r) ]).

(** [Cat(dq1.i, dq2.i, sr[:-spi_width*2])] stored back into [sr]. *)
Definition captured (cfg : config) (r : regs) (i : inputs) : Z :=
  trunc (sr_width cfg)
    (Cat [ (spi_width cfg, dq1_i i);
           (spi_width cfg, dq2_i i);
           (sr_width cfg - spi_width cfg * 2,
            slice (sr r) 0 (sr_width cfg - spi_width cfg * 2)) ]).


(** ** Cycle counts *)

(** The phase lengths as the specification writes them:
    [commandWidth/lanes], [addressWidth/lanes] and [dataWidth/(2*lanes)]. *)
Definition command_cycles (cfg : config) : Z := cmd_width cfg / spi_width cfg.
Definition address_cycles (cfg : config) : Z := addr_width cfg / spi_width cfg.
Definition data_cycles (cfg : config) : Z :=
  wbone_width cfg / (2 * spi_width cfg).

(** The length the specification gives to a read that continues no burst,
    from the entry into [SEND_CMD] to the acknowledgment. *)
Definition claimed_read_cycles (cfg : config) : Z :=
  command_cycles cfg + address_cycles cfg + dummy cfg + data_cycles cfg.

(** The number of cycles from cycle [t0] to the first acknowledgment, both
    included. *)
Definition cycles_to_ack (cfg : config) (env : nat -> inputs) (r : regs)
  (fuel t0 : nat) : option nat :=
  match first_ack cfg env r fuel t0 with
  | Some t => Some (t - t0 + 1)%nat
  | None => None
  end.

(** [WaitMore(dir)] of the specification: the two waiting states of the
    FSM, by the direction of the transaction that was just retired. *)
Definition wait_more (write : bool) : fsm_state :=
  if write then WAIT_SEND_MORE else WAIT_RECV_MORE.

(** What holds of the registers in every cycle after reset: the counter is
    within its 5 bits once the FSM has left [IDLE], and it is 0 in a
    waiting state. *)
Definition steady (r : regs) : Prop :=
  match state r with
  | WAIT_SEND_MORE | WAIT_RECV_MORE => cycle_counter r = 0
  | _ => True
  end.

(** A write request held on the bus, and a read request held on the bus. *)
Definition write_env (adr dat_w : Z) : nat -> inputs :=
  fun _ => request true adr dat_w.

Definition read_env (adr : Z) : nat -> inputs :=
  fun _ => request false adr 0.

#[global] Instance fsm_state_eq_dec : EqDecision fsm_state.
Proof. solve_decision. Defined.

(** The number of cycles of a trace spent in state [s]. *)
Definition cycles_in (s : fsm_state) (l : list (fsm_state * bool)) : nat :=
  length (List.filter (fun x => bool_decide (fst x = s)) l).

(** The lengths of the two receive phases of the sequencer, and of a read
    that continues no burst, from the entry into [SEND_CMD] to the
    acknowledgment: the counter of a receive phase runs from 0 up to the
    value it is compared with, inclusive. *)
Definition dummy_phase_cycles (cfg : config) : nat := Z.to_nat (dummy cfg + 1).
Definition recv_phase_cycles (cfg : config) : nat :=
  Z.to_nat (data_cycles cfg + 1).
Definition read_cycles (cfg : config) : nat :=
  Z.to_nat (command_cycles cfg) + Z.to_nat (address_cycles cfg) +
  dummy_phase_cycles cfg + recv_phase_cycles cfg.

(** A read at address 0, held until it is acknowledged in cycle 25,
    followed at once by a read at address 1. *)
Definition read_read_env (t : nat) : inputs :=
  if (t <=? 25)%nat then request false 0 0 else request false 1 0.

(** Two register files that no observer of the FSM state and of the
    acknowledgment can tell apart, now or later: what they may differ in
    is overwritten before it is read ([sr] never steers the FSM; the
    counter is reset in [IDLE]; [is_write] and [next_addr] are rewritten in
    [SEND_CMD]). *)
Definition same_control (r1 r2 : regs) : Prop :=
  state r1 = state r2 /\
  match state r1 with
  | IDLE => True
  | SEND_CMD => cycle_counter r1 = cycle_counter r2
  | _ =>
      cycle_counter r1 = cycle_counter r2 /\
      is_write r1 = is_write r2 /\
      next_addr r1 = next_addr r2
  end.

(** A write of 0x12345678 at address 0, held until it is acknowledged in
    cycle 18, followed at once by a write of 0xdeadbeef at address 1. *)
Definition write_write_env (t : nat) : inputs :=
  if (t <=? 18)%nat then request true 0 0x12345678
  else request true 1 0xdeadbeef.

(** A read at address 0 during which the two devices answer, in cycle
    [t], with the low four bits of [t] and of [t + 5]. *)
Definition capture_env (t : nat) : inputs :=
  Inputs true true false 0 0 (Z.of_nat t mod 16) ((Z.of_nat t + 5) mod 16).

(** What the registers of the quad sequencer satisfy in every cycle after
    reset: the shift register is within its 32 bits; a data phase that has
    run for [cycle_counter] cycles has emptied the low [8 * cycle_counter]
    bits of it; after the phase nothing is left. *)
Definition drained (r : regs) : Prop :=
  0 <= sr r < 2 ^ 32 /\
  match state r with
  | SEND_DATA =>
      0 <= cycle_counter r <= 3 /\ sr r mod 2 ^ (8 * cycle_counter r) = 0
  | WAIT_SEND_MORE => cycle_counter r = 0 /\ sr r = 0
  | WAIT_RECV_MORE => cycle_counter r = 0
  | _ => True
  end.

(** * Properties *)

(** ** The command formatter *)

Section FormatCmd.

Variables cmd w : Z.
Hypothesis w_pos : 0 < w.

Lemma format_cmd_body_bit (c b i : Z) :
  0 <= i -> 0 <= b ->
  Z.testbit (format_cmd_body cmd w c b) i =
  Z.testbit c i && (negb (i =? b * w) || Z.testbit cmd b).
Proof.
  intros Hi Hb. unfold format_cmd_body.
  rewrite (Z.testbit_odd cmd b), Zmod_odd.
  destruct (Z.odd (Z.shiftr cmd b)); simpl.
  - now rewrite orb_true_r, andb_true_r.
  - rewrite orb_false_r, Z.land_spec, Z.lnot_spec, Z.shiftl_1_l by lia.
    rewrite Z.pow2_bits_eqb by nia.
    now rewrite (Z.eqb_sym (b * w) i).
Qed.

Lemma format_cmd_fold_bit (l : list Z) (c i : Z) :
  0 <= i -> Forall (fun b => 0 <= b) l ->
  Z.testbit (fold_left (format_cmd_body cmd w) l c) i =
  Z.testbit c i &&
  forallb (fun b => negb (i =? b * w) || Z.testbit cmd b) l.
Proof.
  intros Hi Hl. revert c.
  induction Hl as [|b l Hb Hl IH]; intros c; simpl.
  - now rewrite andb_true_r.
  - rewrite IH, format_cmd_body_bit by assumption.
    now rewrite andb_assoc.
Qed.

Lemma forallb_skip (g : Z -> bool) (q : Z) (l : list Z) :
  ~ In q l -> forallb (fun b => negb (q =? b) || g b) l = true.
Proof.
  induction l as [|a l IH]; simpl; intros Hn; [reflexivity|].
  destruct (Z.eqb_spec q a) as [->|_]; [tauto|].
  simpl. apply IH. tauto.
Qed.

Lemma forallb_pick (g : Z -> bool) (q : Z) (l : list Z) :
  List.NoDup l -> In q l ->
  forallb (fun b => negb (q =? b) || g b) l = g q.
Proof.
  induction 1 as [|a l Ha Hl IH]; simpl; [tauto|].
  intros [->|Hin].
  - rewrite Z.eqb_refl, forallb_skip by assumption.
    simpl. apply andb_true_r.
  - destruct (Z.eqb_spec q a) as [->|_]; [tauto|].
    simpl. now apply IH.
Qed.

Lemma forallb_lane0 (g : Z -> bool) (i q : Z) (l : list Z) :
  i = w * q ->
  forallb (fun b => negb (i =? b * w) || g b) l =
  forallb (fun b => negb (q =? b) || g b) l.
Proof.
  intros ->.
  induction l as [|a l IH]; simpl; [reflexivity|].
  rewrite IH. f_equal. f_equal. f_equal.
  destruct (Z.eqb_spec (w * q) (a * w)), (Z.eqb_spec q a);
    try reflexivity; nia.
Qed.

Lemma forallb_off_lane (g : Z -> bool) (i : Z) (l : list Z) :
  i mod w <> 0 ->
  forallb (fun b => negb (i =? b * w) || g b) l = true.
Proof.
  intros Hnz. apply forallb_forall. intros b _.
  destruct (Z.eqb_spec i (b * w)) as [He|_]; [|reflexivity].
  exfalso. apply Hnz. rewrite He. apply Z.mod_mul. lia.
Qed.

Lemma NoDup_range_8 : List.NoDup (range 8).
Proof. unfold range. simpl. repeat constructor; simpl; lia. Qed.

Lemma In_range_8 (q : Z) : 0 <= q < 8 -> In q (range 8).
Proof. intros Hq. unfold range. simpl. lia. Qed.

(** Bit [i] of the command word: inside the word, the lane-0 slot of
    group [i / w] carries the opcode bit, the other slots are 1; above
    the word, 0. *)
Lemma format_cmd_bit (i : Z) :
  0 <= i ->
  Z.testbit (_format_cmd cmd w) i =
  (i <? 8 * w) && (negb (i mod w =? 0) || Z.testbit cmd (i / w)).
Proof.
  intros Hi. unfold _format_cmd.
  rewrite format_cmd_fold_bit
    by (try assumption; unfold range; simpl; repeat constructor; lia).
  replace (2 ^ (8 * w) - 1) with (Z.ones (8 * w))
    by (rewrite Z.ones_equiv; lia).
  rewrite Z.testbit_ones_nonneg by lia.
  destruct (Z.ltb_spec i (8 * w)) as [Hlt|Hge]; [|reflexivity].
  rewrite !andb_true_l.
  pose proof (Z.div_mod i w ltac:(lia)) as Hdm.
  assert (Hq : 0 <= i / w < 8)
    by (split; [apply Z.div_pos|apply Z.div_lt_upper_bound]; lia).
  destruct (Z.eqb_spec (i mod w) 0) as [Hz|Hnz]; cbn [negb orb].
  - rewrite (forallb_lane0 (Z.testbit cmd) i (i / w) (range 8)) by lia.
    apply (forallb_pick (Z.testbit cmd)); [apply NoDup_range_8|now apply In_range_8].
  - now apply (forallb_off_lane (Z.testbit cmd)).
Qed.

End FormatCmd.

Lemma format_cmd_range (cmd w : Z) :
  0 < w -> 0 <= _format_cmd cmd w < 2 ^ (8 * w).
Proof.
  intros Hw.
  assert (H : _format_cmd cmd w = (_format_cmd cmd w) mod 2 ^ (8 * w)).
  { rewrite <- Z.land_ones by lia.
    apply Z.bits_inj'. intros i Hi.
    rewrite Z.land_spec, Z.testbit_ones_nonneg, format_cmd_bit by lia.
    destruct (i <? 8 * w); simpl; now rewrite ?andb_true_r, ?andb_false_r. }
  rewrite H. apply Z.mod_pos_bound. apply Z.pow_pos_nonneg; lia.
Qed.

(** C4: for an 8-bit opcode [o] and [lanes] in {1,2,4}, the command word
    has [8 * lanes] bits; its bit at wire position [b * lanes] is bit [b]
    of [o], for [b] in 0..7; each of its other bits is 1; and the quad
    fast-read opcode 0xEB gives 0xFFFEFEFF on 4 lanes. *)
Theorem format_cmd_interleaves (o lanes : Z) :
  0 <= o < 256 ->
  lanes = 1 \/ lanes = 2 \/ lanes = 4 ->
  0 <= _format_cmd o lanes < 2 ^ (8 * lanes) /\
  (forall b, 0 <= b < 8 ->
     Z.testbit (_format_cmd o lanes) (b * lanes) = Z.testbit o b) /\
  (forall i, 0 <= i < 8 * lanes ->
     (forall b, 0 <= b < 8 -> i <> b * lanes) ->
     Z.testbit (_format_cmd o lanes) i = true) /\
  _format_cmd 0xEB 4 = 0xFFFEFEFF.
Proof.
  intros _ Hl.
  assert (Hw : 0 < lanes) by lia.
  split; [now apply format_cmd_range|].
  split; [|split; [|reflexivity]].
  - intros b Hb.
    rewrite format_cmd_bit by nia.
    rewrite Z.mod_mul, Z.div_mul by lia.
    destruct (Z.ltb_spec (b * lanes) (8 * lanes)); [reflexivity|nia].
  - intros i Hi Hne.
    rewrite format_cmd_bit by lia.
    destruct (Z.ltb_spec i (8 * lanes)); [simpl|lia].
    destruct (Z.eqb_spec (i mod lanes) 0) as [Hz|]; [exfalso|reflexivity].
    pose proof (Z.div_mod i lanes ltac:(lia)) as Hdm.
    apply (Hne (i / lanes)); [|lia].
    split; [apply Z.div_pos|apply Z.div_lt_upper_bound]; lia.
Qed.

Lemma format_cmd_interleaves_witness :
  0 <= _format_cmd 0xEB 4 < 2 ^ (8 * 4) /\
  (forall b, 0 <= b < 8 ->
     Z.testbit (_format_cmd 0xEB 4) (b * 4) = Z.testbit 0xEB b) /\
  (forall i, 0 <= i < 8 * 4 ->
     (forall b, 0 <= b < 8 -> i <> b * 4) ->
     Z.testbit (_format_cmd 0xEB 4) i = true) /\
  _format_cmd 0xEB 4 = 0xFFFEFEFF.
Proof. apply (format_cmd_interleaves 0xEB 4); lia. Defined.

(** C8: on one lane the command formatter is the identity on 8-bit
    opcodes. *)
Theorem format_cmd_single_lane (o : Z) :
  0 <= o < 256 -> _format_cmd o 1 = o.
Proof.
  intros Ho. apply Z.bits_inj'. intros i Hi.
  rewrite format_cmd_bit by lia.
  rewrite Z.mod_1_r, Z.div_1_r. simpl.
  destruct (Z.ltb_spec i (8 * 1)); simpl; [reflexivity|].
  symmetry. apply Z.bits_above_log2; [lia|].
  destruct (Z.eq_dec o 0) as [->|]; [simpl; lia|].
  apply Z.log2_lt_pow2; [lia|].
  apply Z.lt_le_trans with (2 ^ 8); [lia|].
  apply Z.pow_le_mono_r; lia.
Qed.

Lemma format_cmd_single_lane_witness : _format_cmd 0x0b 1 = 0x0b.
Proof. apply (format_cmd_single_lane 0x0b); lia. Defined.

(** ** Construction *)

Lemma read_cmd_params_lookup (k : Z) :
  read_cmd_params !! k =
  if k =? 4 then Some (_format_cmd _QIOFR 4, 4 * 8)
  else if k =? 2 then Some (_format_cmd _DIOFR 2, 2 * 8)
  else if k =? 1 then Some (_format_cmd _FAST_READ 1, 1 * 8)
  else None.
Proof.
  unfold read_cmd_params.
  destruct (Z.eqb_spec k 4) as [->|H4]; [apply lookup_insert_eq|].
  rewrite lookup_insert_ne by congruence.
  destruct (Z.eqb_spec k 2) as [->|H2]; [apply lookup_insert_eq|].
  rewrite lookup_insert_ne by congruence.
  destruct (Z.eqb_spec k 1) as [->|H1]; [apply lookup_singleton_eq|].
  apply lookup_singleton_ne. congruence.
Qed.

Lemma write_cmd_params_lookup (k : Z) :
  write_cmd_params !! k =
  if k =? 4 then Some (_format_cmd _QIOW 4)
  else if k =? 1 then Some (_format_cmd _WRITE 1)
  else None.
Proof.
  unfold write_cmd_params.
  destruct (Z.eqb_spec k 4) as [->|H4]; [apply lookup_insert_eq|].
  rewrite lookup_insert_ne by congruence.
  destruct (Z.eqb_spec k 1) as [->|H1]; [apply lookup_singleton_eq|].
  apply lookup_singleton_ne. congruence.
Qed.

Lemma construct_quad (dummy : Z) (endianness : string) :
  construct 4 4 dummy endianness = inr (quad_config dummy endianness).
Proof. reflexivity. Qed.

Lemma construct_inv (len1 len2 dummy : Z) (endianness : string) (cfg : config) :
  construct len1 len2 dummy endianness = inr cfg ->
  len1 = 4 /\ len2 = 4 /\ cfg = quad_config dummy endianness.
Proof.
  unfold construct.
  destruct (Z.leb_spec 2 len1) as [Hge|Hlt]; simpl; [|discriminate].
  destruct (Z.eqb_spec len1 len2) as [<-|Hne]; simpl; [|discriminate].
  rewrite read_cmd_params_lookup, write_cmd_params_lookup.
  destruct (Z.eqb_spec len1 4) as [->|H4].
  - intros H. injection H as <-. repeat split.
  - destruct (Z.eqb_spec len1 2) as [->|H2]; [discriminate|].
    destruct (Z.eqb_spec len1 1) as [->|H1]; [lia|discriminate].
Qed.

(** ** The sequencer, state by state *)

Section Step.

Variable cfg : config.

Ltac step_equation r H :=
  destruct r; simpl in H; subst;
  unfold tick, comb, pending; cbn [act state];
  repeat match goal with
         | |- context [If ?c _] =>
             lazymatch c with
             | true => fail
             | false => fail
             | _ => destruct c
             end
         | |- context [IfElse ?c _ _] =>
             lazymatch c with
             | true => fail
             | false => fail
             | _ => destruct c
             end
         end;
  reflexivity.

Lemma tick_IDLE (r : regs) (i : inputs) :
  state r = IDLE ->
  tick cfg r i =
  if pending i
  then Regs SEND_CMD 0 (is_write r) (next_addr r)
         (trunc (sr_width cfg)
            (if bus_we i then write_cmd cfg else read_cmd cfg))
  else Regs IDLE 0 (is_write r) (next_addr r) (sr r).
Proof. intros H. step_equation r H. Qed.

Lemma tick_SEND_CMD (r : regs) (i : inputs) :
  state r = SEND_CMD ->
  tick cfg r i =
  if cycle_counter r =? cmd_width cfg / spi_width cfg - 1
  then Regs SEND_ADDR 0 (bus_we i) (trunc 32 (bus_adr i + 1))
         (trunc (sr_width cfg) (Z.shiftl (bus_adr i) 1))
  else Regs SEND_CMD (trunc 5 (cycle_counter r + 1)) (bus_we i)
         (next_addr r)
         (shifted cfg (cmd_width cfg - wbone_width cfg + spi_width cfg) r).
Proof. intros H. step_equation r H. Qed.

Lemma tick_SEND_ADDR (r : regs) (i : inputs) :
  state r = SEND_ADDR ->
  tick cfg r i =
  if cycle_counter r =? addr_width cfg / spi_width cfg - 1
  then
    if is_write r
    then Regs SEND_DATA 0 (is_write r) (next_addr r)
           (trunc (sr_width cfg) (bus_dat_w i))
    else Regs RECV_DATA_DUMMY 0 (is_write r) (next_addr r)
           (shifted cfg (cmd_width cfg - wbone_width cfg + spi_width cfg) r)
  else Regs SEND_ADDR (trunc 5 (cycle_counter r + 1)) (is_write r)
         (next_addr r)
         (shifted cfg (cmd_width cfg - wbone_width cfg + spi_width cfg) r).
Proof. intros H. step_equation r H. Qed.

Lemma tick_SEND_DATA (r : regs) (i : inputs) :
  state r = SEND_DATA ->
  tick cfg r i =
  Regs (if cycle_counter r =? wbone_width cfg / spi_width cfg / 2 - 1
        then WAIT_SEND_MORE else SEND_DATA)
       (if cycle_counter r =? wbone_width cfg / spi_width cfg / 2 - 1
        then 0 else trunc 5 (cycle_counter r + 1))
       (is_write r) (next_addr r)
       (shifted cfg (cmd_width cfg - wbone_width cfg + spi_width cfg * 2) r).
Proof. intros H. step_equation r H. Qed.

Lemma tick_RECV_DATA_DUMMY (r : regs) (i : inputs) :
  state r = RECV_DATA_DUMMY ->
  tick cfg r i =
  if cycle_counter r =? dummy cfg
  then Regs RECV_DATA 0 (is_write r) (next_addr r) (sr r)
  else Regs RECV_DATA_DUMMY (trunc 5 (cycle_counter r + 1)) (is_write r)
         (next_addr r) (sr r).
Proof. intros H. step_equation r H. Qed.

Lemma tick_RECV_DATA (r : regs) (i : inputs) :
  state r = RECV_DATA ->
  tick cfg r i =
  Regs (if cycle_counter r =? wbone_width cfg / spi_width cfg / 2
        then WAIT_RECV_MORE else RECV_DATA)
       (if cycle_counter r =? wbone_width cfg / spi_width cfg / 2
        then 0 else trunc 5 (cycle_counter r + 1))
       (is_write r) (next_addr r) (captured cfg r i).
Proof. intros H. step_equation r H. Qed.

Lemma tick_WAIT_SEND_MORE (r : regs) (i : inputs) :
  state r = WAIT_SEND_MORE ->
  tick cfg r i =
  if pending i
  then
    if (bus_adr i =? next_addr r) && bus_we i
    then Regs SEND_DATA (cycle_counter r) (is_write r)
           (trunc 32 (bus_adr i + 1)) (sr r)
    else Regs IDLE (cycle_counter r) (is_write r) (next_addr r) (sr r)
  else r.
Proof. intros H. step_equation r H. Qed.

Lemma tick_WAIT_RECV_MORE (r : regs) (i : inputs) :
  state r = WAIT_RECV_MORE ->
  tick cfg r i =
  if pending i
  then
    if (bus_adr i =? next_addr r) && negb (bus_we i)
    then Regs RECV_DATA (cycle_counter r) (is_write r)
           (trunc 32 (bus_adr i + 1)) (sr r)
    else Regs IDLE (cycle_counter r) (is_write r) (next_addr r) (sr r)
  else r.
Proof. intros H. step_equation r H. Qed.

(** The combinatorial signals are functions of the registers alone. *)
Ltac comb_equation :=
  unfold comb; destruct (state _); cbn [act];
  repeat match goal with
         | |- context [If ?c _] =>
             lazymatch c with
             | true => fail
             | false => fail
             | _ => destruct c
             end
         | |- context [IfElse ?c _ _] =>
             lazymatch c with
             | true => fail
             | false => fail
             | _ => destruct c
             end
         end;
  reflexivity.

Lemma bus_ack_comb (r : regs) (i : inputs) :
  bus_ack (comb cfg r i) =
  match state r with
  | SEND_DATA =>
      cycle_counter r =? wbone_width cfg / spi_width cfg / 2 - 1
  | RECV_DATA =>
      cycle_counter r =? wbone_width cfg / spi_width cfg / 2
  | _ => false
  end.
Proof. comb_equation. Qed.

Lemma gang_outputs_comb (r : regs) (i : inputs) :
  gang_outputs (comb cfg r i) =
  match state r with
  | SEND_CMD | SEND_ADDR => true
  | _ => false
  end.
Proof. comb_equation. Qed.

Lemma dq_oe_comb (r : regs) (i : inputs) :
  dq_oe (comb cfg r i) =
  match state r with
  | SEND_CMD | SEND_ADDR | SEND_DATA => true
  | _ => false
  end.
Proof. comb_equation. Qed.

Lemma cs_n_comb (r : regs) (i : inputs) :
  cs_n (comb cfg r i) =
  match state r with
  | IDLE => true
  | _ => false
  end.
Proof. comb_equation. Qed.

Lemma clk_comb (r : regs) (i : inputs) :
  clk (comb cfg r i) =
  match state r with
  | IDLE | WAIT_SEND_MORE | WAIT_RECV_MORE => false
  | _ => true
  end.
Proof. comb_equation. Qed.

End Step.

(** ** Phases *)

Lemma trunc_small (width v : Z) : 0 <= v < 2 ^ width -> trunc width v = v.
Proof. intros H. unfold trunc. now apply Z.mod_small. Qed.

Lemma run_S (cfg : config) (env : nat -> inputs) (r : regs) (n : nat) :
  run cfg env r (S n) = tick cfg (run cfg env r n) (env n).
Proof. reflexivity. Qed.

(** A phase is a stay in one FSM state [P] while the cycle counter climbs
    from 0 to the value [T] that ends it. *)
Section Counting.

Variable cfg : config.
Variable P : fsm_state.
Variable T : Z.
Variable Q : nat -> regs -> Prop.

Hypothesis T_range : 0 <= T < 2 ^ 5.
Hypothesis stay : forall r i,
  state r = P -> cycle_counter r <> T ->
  state (tick cfg r i) = P /\
  cycle_counter (tick cfg r i) = trunc 5 (cycle_counter r + 1).
Hypothesis keep : forall k r i,
  state r = P -> cycle_counter r = Z.of_nat k -> Z.of_nat k < T ->
  Q k r -> Q (S k) (tick cfg r i).

Variable env : nat -> inputs.
Variable r0 : regs.
Variable t0 : nat.

Hypothesis enter_state : state (run cfg env r0 t0) = P.
Hypothesis enter_counter : cycle_counter (run cfg env r0 t0) = 0.
Hypothesis enter_keep : Q 0 (run cfg env r0 t0).

Lemma counting (k : nat) :
  Z.of_nat k <= T ->
  state (run cfg env r0 (t0 + k)) = P /\
  cycle_counter (run cfg env r0 (t0 + k)) = Z.of_nat k /\
  Q k (run cfg env r0 (t0 + k)).
Proof.
  induction k as [|k IH]; intros Hk.
  - rewrite Nat.add_0_r. auto.
  - destruct IH as (Hs & Hc & Hq); [lia|].
    rewrite Nat.add_succ_r, run_S.
    destruct (stay (run cfg env r0 (t0 + k)) (env (t0 + k)%nat))
      as [Hs' Hc']; [assumption|lia|].
    split; [assumption|]. split.
    + rewrite Hc', Hc, trunc_small; lia.
    + apply keep; [assumption|assumption|lia|assumption].
Qed.

End Counting.

(** The phases of the sequencer that [__init__] builds. *)
Section QuadPhases.

Variable dummy_cycles : Z.
Variable byte_order : string.

Let cfg : config := quad_config dummy_cycles byte_order.

Variable env : nat -> inputs.
Variable r0 : regs.

Let at_ (t : nat) : regs := run cfg env r0 t.

Lemma observe_eq (t : nat) :
  observe cfg env r0 t =
  (state (at_ t),
   match state (at_ t) with
   | SEND_DATA => cycle_counter (at_ t) =? 3
   | RECV_DATA => cycle_counter (at_ t) =? 4
   | _ => false
   end).
Proof. unfold observe, ack_at. now rewrite bus_ack_comb. Qed.

Lemma send_cmd_phase (t0 : nat) :
  state (at_ t0) = SEND_CMD ->
  cycle_counter (at_ t0) = 0 ->
  (forall k, (k < 8)%nat -> observe cfg env r0 (t0 + k) = (SEND_CMD, false)) /\
  state (at_ (t0 + 8)) = SEND_ADDR /\
  cycle_counter (at_ (t0 + 8)) = 0 /\
  is_write (at_ (t0 + 8)) = bus_we (env (t0 + 7)%nat) /\
  next_addr (at_ (t0 + 8)) = trunc 32 (bus_adr (env (t0 + 7)%nat) + 1) /\
  sr (at_ (t0 + 8)) = trunc 32 (Z.shiftl (bus_adr (env (t0 + 7)%nat)) 1).
Proof.
  intros Hs Hc.
  assert (Hcount : forall k, Z.of_nat k <= 7 ->
            state (at_ (t0 + k)) = SEND_CMD /\
            cycle_counter (at_ (t0 + k)) = Z.of_nat k /\ True).
  { apply (counting cfg SEND_CMD 7 (fun _ _ => True));
      try assumption; [simpl; lia| |auto|auto].
    intros r i Hr Hne. rewrite tick_SEND_CMD by assumption.
    change (cmd_width cfg / spi_width cfg - 1) with 7.
    destruct (Z.eqb_spec (cycle_counter r) 7); [lia|now simpl]. }
  split.
  - intros k Hk. destruct (Hcount k) as (Hsk & _); [lia|].
    rewrite observe_eq, Hsk. reflexivity.
  - destruct (Hcount 7%nat) as (Hs7 & Hc7 & _); [lia|].
    replace (t0 + 8)%nat with (S (t0 + 7)) by lia.
    unfold at_ in *. rewrite run_S, tick_SEND_CMD by assumption.
    rewrite Hc7. simpl. auto.
Qed.

Lemma send_addr_phase (t0 : nat) (w : bool) (na : Z) :
  state (at_ t0) = SEND_ADDR ->
  cycle_counter (at_ t0) = 0 ->
  is_write (at_ t0) = w ->
  next_addr (at_ t0) = na ->
  (forall k, (k < 6)%nat -> observe cfg env r0 (t0 + k) = (SEND_ADDR, false)) /\
  state (at_ (t0 + 6)) = (if w then SEND_DATA else RECV_DATA_DUMMY) /\
  cycle_counter (at_ (t0 + 6)) = 0 /\
  next_addr (at_ (t0 + 6)) = na /\
  (w = true ->
   sr (at_ (t0 + 6)) = trunc 32 (bus_dat_w (env (t0 + 5)%nat))).
Proof.
  intros Hs Hc Hw Hna.
  assert (Hcount : forall k, Z.of_nat k <= 5 ->
            state (at_ (t0 + k)) = SEND_ADDR /\
            cycle_counter (at_ (t0 + k)) = Z.of_nat k /\
            (is_write (at_ (t0 + k)) = w /\ next_addr (at_ (t0 + k)) = na)).
  { apply (counting cfg SEND_ADDR 5
             (fun _ r => is_write r = w /\ next_addr r = na));
      try assumption; [simpl; lia| | |auto].
    - intros r i Hr Hne. rewrite tick_SEND_ADDR by assumption.
      change (addr_width cfg / spi_width cfg - 1) with 5.
      destruct (Z.eqb_spec (cycle_counter r) 5); [lia|now simpl].
    - intros k r i Hr Hck Hlt Hq. rewrite tick_SEND_ADDR by assumption.
      change (addr_width cfg / spi_width cfg - 1) with 5.
      destruct (Z.eqb_spec (cycle_counter r) 5); [lia|now simpl]. }
  split.
  - intros k Hk. destruct (Hcount k) as (Hsk & _); [lia|].
    rewrite observe_eq, Hsk. reflexivity.
  - destruct (Hcount 5%nat) as (Hs5 & Hc5 & Hw5 & Hna5); [lia|].
    replace (t0 + 6)%nat with (S (t0 + 5)) by lia.
    unfold at_ in *. rewrite run_S, tick_SEND_ADDR by assumption.
    rewrite Hc5, Hw5. simpl. destruct w; simpl; auto.
    repeat split; auto. discriminate.
Qed.

Lemma send_data_phase (t0 : nat) (na : Z) :
  state (at_ t0) = SEND_DATA ->
  cycle_counter (at_ t0) = 0 ->
  next_addr (at_ t0) = na ->
  (forall k, (k < 3)%nat -> observe cfg env r0 (t0 + k) = (SEND_DATA, false)) /\
  observe cfg env r0 (t0 + 3) = (SEND_DATA, true) /\
  state (at_ (t0 + 4)) = WAIT_SEND_MORE /\
  cycle_counter (at_ (t0 + 4)) = 0 /\
  next_addr (at_ (t0 + 4)) = na.
Proof.
  intros Hs Hc Hna.
  assert (Hcount : forall k, Z.of_nat k <= 3 ->
            state (at_ (t0 + k)) = SEND_DATA /\
            cycle_counter (at_ (t0 + k)) = Z.of_nat k /\
            next_addr (at_ (t0 + k)) = na).
  { apply (counting cfg SEND_DATA 3 (fun _ r => next_addr r = na));
      try assumption; [simpl; lia| |].
    - intros r i Hr Hne. rewrite tick_SEND_DATA by assumption.
      change (wbone_width cfg / spi_width cfg / 2 - 1) with 3.
      destruct (Z.eqb_spec (cycle_counter r) 3); [lia|now simpl].
    - intros k r i Hr Hck Hlt Hq. now rewrite tick_SEND_DATA by assumption. }
  split; [|split].
  - intros k Hk. destruct (Hcount k) as (Hsk & Hck & _); [lia|].
    rewrite observe_eq, Hsk, Hck.
    destruct (Z.eqb_spec (Z.of_nat k) 3); [lia|reflexivity].
  - destruct (Hcount 3%nat) as (Hs3 & Hc3 & _); [lia|].
    rewrite observe_eq, Hs3, Hc3. reflexivity.
  - destruct (Hcount 3%nat) as (Hs3 & Hc3 & Hna3); [lia|].
    replace (t0 + 4)%nat with (S (t0 + 3)) by lia.
    unfold at_ in *. rewrite run_S, tick_SEND_DATA by assumption.
    rewrite Hc3. simpl. auto.
Qed.

Lemma recv_data_dummy_phase (t0 : nat) (na : Z) :
  0 <= dummy_cycles < 2 ^ 5 ->
  state (at_ t0) = RECV_DATA_DUMMY ->
  cycle_counter (at_ t0) = 0 ->
  next_addr (at_ t0) = na ->
  (forall k, (k <= Z.to_nat dummy_cycles)%nat ->
     observe cfg env r0 (t0 + k) = (RECV_DATA_DUMMY, false)) /\
  state (at_ (t0 + (Z.to_nat dummy_cycles + 1))) = RECV_DATA /\
  cycle_counter (at_ (t0 + (Z.to_nat dummy_cycles + 1))) = 0 /\
  next_addr (at_ (t0 + (Z.to_nat dummy_cycles + 1))) = na.
Proof.
  intros Hd Hs Hc Hna.
  assert (Hcount : forall k, Z.of_nat k <= dummy_cycles ->
            state (at_ (t0 + k)) = RECV_DATA_DUMMY /\
            cycle_counter (at_ (t0 + k)) = Z.of_nat k /\
            next_addr (at_ (t0 + k)) = na).
  { apply (counting cfg RECV_DATA_DUMMY dummy_cycles
             (fun _ r => next_addr r = na));
      try assumption.
    - intros r i Hr Hne. rewrite tick_RECV_DATA_DUMMY by assumption.
      change (dummy cfg) with dummy_cycles.
      destruct (Z.eqb_spec (cycle_counter r) dummy_cycles); [lia|now simpl].
    - intros k r i Hr Hck Hlt Hq.
      rewrite tick_RECV_DATA_DUMMY by assumption.
      now destruct (cycle_counter r =? dummy cfg). }
  split.
  - intros k Hk. destruct (Hcount k) as (Hsk & _); [lia|].
    rewrite observe_eq, Hsk. reflexivity.
  - destruct (Hcount (Z.to_nat dummy_cycles)) as (Hsd & Hcd & Hnad); [lia|].
    replace (t0 + (Z.to_nat dummy_cycles + 1))%nat
      with (S (t0 + Z.to_nat dummy_cycles)) by lia.
    unfold at_ in *. rewrite run_S, tick_RECV_DATA_DUMMY by assumption.
    change (dummy cfg) with dummy_cycles.
    rewrite Hcd, Z2Nat.id, Z.eqb_refl by lia. simpl. auto.
Qed.

Lemma recv_data_phase (t0 : nat) (na : Z) :
  state (at_ t0) = RECV_DATA ->
  cycle_counter (at_ t0) = 0 ->
  next_addr (at_ t0) = na ->
  (forall k, (k < 4)%nat -> observe cfg env r0 (t0 + k) = (RECV_DATA, false)) /\
  observe cfg env r0 (t0 + 4) = (RECV_DATA, true) /\
  state (at_ (t0 + 5)) = WAIT_RECV_MORE /\
  cycle_counter (at_ (t0 + 5)) = 0 /\
  next_addr (at_ (t0 + 5)) = na.
Proof.
  intros Hs Hc Hna.
  assert (Hcount : forall k, Z.of_nat k <= 4 ->
            state (at_ (t0 + k)) = RECV_DATA /\
            cycle_counter (at_ (t0 + k)) = Z.of_nat k /\
            next_addr (at_ (t0 + k)) = na).
  { apply (counting cfg RECV_DATA 4 (fun _ r => next_addr r = na));
      try assumption; [simpl; lia| |].
    - intros r i Hr Hne. rewrite tick_RECV_DATA by assumption.
      change (wbone_width cfg / spi_width cfg / 2) with 4.
      destruct (Z.eqb_spec (cycle_counter r) 4); [lia|now simpl].
    - intros k r i Hr Hck Hlt Hq. now rewrite tick_RECV_DATA by assumption. }
  split; [|split].
  - intros k Hk. destruct (Hcount k) as (Hsk & Hck & _); [lia|].
    rewrite observe_eq, Hsk, Hck.
    destruct (Z.eqb_spec (Z.of_nat k) 4); [lia|reflexivity].
  - destruct (Hcount 4%nat) as (Hs4 & Hc4 & _); [lia|].
    rewrite observe_eq, Hs4, Hc4. reflexivity.
  - destruct (Hcount 4%nat) as (Hs4 & Hc4 & Hna4); [lia|].
    replace (t0 + 5)%nat with (S (t0 + 4)) by lia.
    unfold at_ in *. rewrite run_S, tick_RECV_DATA by assumption.
    rewrite Hc4. simpl. auto.
Qed.

End QuadPhases.

(** ** Traces *)

Section Traces.

Variable cfg : config.
Variable env : nat -> inputs.
Variable r0 : regs.

Lemma trace_app (t0 n m : nat) :
  trace cfg env r0 t0 (n + m) =
  trace cfg env r0 t0 n ++ trace cfg env r0 (t0 + n) m.
Proof. unfold trace. now rewrite seq_app, map_app. Qed.

Lemma trace_repeat (t0 n : nat) (x : fsm_state * bool) :
  (forall k, (k < n)%nat -> observe cfg env r0 (t0 + k) = x) ->
  trace cfg env r0 t0 n = repeat x n.
Proof.
  unfold trace. revert t0.
  induction n as [|n IH]; intros t0 H; simpl; [reflexivity|].
  f_equal.
  - rewrite <- (H 0%nat) by lia. now rewrite Nat.add_0_r.
  - apply IH. intros k Hk.
    replace (S t0 + k)%nat with (t0 + S k)%nat by lia.
    apply H. lia.
Qed.

Lemma trace_one (t0 : nat) :
  trace cfg env r0 t0 1 = [observe cfg env r0 t0].
Proof. reflexivity. Qed.

(** The cycles before the first acknowledgment, read off a trace. *)
Lemma first_ack_skip (fuel t0 n : nat) :
  (forall k, (k < n)%nat -> ack_at cfg env r0 (t0 + k) = false) ->
  (n <= fuel)%nat ->
  first_ack cfg env r0 fuel t0 = first_ack cfg env r0 (fuel - n) (t0 + n).
Proof.
  revert fuel t0.
  induction n as [|n IH]; intros fuel t0 H Hle.
  - now rewrite Nat.sub_0_r, Nat.add_0_r.
  - destruct fuel as [|fuel]; [lia|]. simpl.
    rewrite <- (Nat.add_0_r t0) at 1. rewrite (H 0%nat) by lia.
    rewrite IH; [f_equal; lia| |lia].
    intros k Hk. replace (S t0 + k)%nat with (t0 + S k)%nat by lia.
    apply H. lia.
Qed.

Lemma first_ack_found (fuel t0 n : nat) :
  (forall k, (k < n)%nat -> ack_at cfg env r0 (t0 + k) = false) ->
  ack_at cfg env r0 (t0 + n) = true ->
  (n < fuel)%nat ->
  first_ack cfg env r0 fuel t0 = Some (t0 + n)%nat.
Proof.
  intros Hno Hack Hlt.
  rewrite (first_ack_skip fuel t0 n) by (assumption || lia).
  destruct (fuel - n)%nat as [|f] eqn:E; [lia|].
  simpl. now rewrite Hack.
Qed.

End Traces.

(** ** Whole transactions *)

Section QuadTransactions.

Variable dummy_cycles : Z.
Variable byte_order : string.

Let cfg : config := quad_config dummy_cycles byte_order.

Variable env : nat -> inputs.
Variable r0 : regs.

Let at_ (t : nat) : regs := run cfg env r0 t.

Hypothesis idle : state r0 = IDLE.
Hypothesis strobe : pending (env 0%nat) = true.

Lemma idle_accepts :
  state (at_ 1) = SEND_CMD /\ cycle_counter (at_ 1) = 0.
Proof.
  unfold at_. rewrite run_S. simpl run.
  rewrite tick_IDLE, strobe by assumption. now simpl.
Qed.

(** A read from [IDLE]: the four phases, then the acknowledgment. *)
Lemma read_from_idle :
  0 <= dummy_cycles < 2 ^ 5 ->
  bus_we (env 8%nat) = false ->
  let D := Z.to_nat dummy_cycles in
  trace cfg env r0 1 (8 + (6 + ((D + 1) + (4 + 1)))) =
    repeat (SEND_CMD, false) 8 ++
    repeat (SEND_ADDR, false) 6 ++
    repeat (RECV_DATA_DUMMY, false) (D + 1) ++
    repeat (RECV_DATA, false) 4 ++ [(RECV_DATA, true)] /\
  state (at_ (1 + (8 + (6 + ((D + 1) + (4 + 1)))))) = WAIT_RECV_MORE /\
  cycle_counter (at_ (1 + (8 + (6 + ((D + 1) + (4 + 1)))))) = 0 /\
  next_addr (at_ (1 + (8 + (6 + ((D + 1) + (4 + 1)))))) =
    trunc 32 (bus_adr (env 8%nat) + 1).
Proof.
  intros Hd Hwe D.
  destruct idle_accepts as [Hs1 Hc1].
  destruct (send_cmd_phase dummy_cycles byte_order env r0 1 Hs1 Hc1)
    as (Tcmd & Hs9 & Hc9 & Hw9 & Hna9 & _).
  change (1 + 7)%nat with 8%nat in Hw9, Hna9. rewrite Hwe in Hw9.
  destruct (send_addr_phase dummy_cycles byte_order env r0 (1 + 8)
              false _ Hs9 Hc9 Hw9 Hna9)
    as (Taddr & Hs15 & Hc15 & Hna15 & _).
  destruct (recv_data_dummy_phase dummy_cycles byte_order env r0
              (1 + 8 + 6) _ Hd Hs15 Hc15 Hna15)
    as (Tdummy & Hs16 & Hc16 & Hna16).
  fold D in Tdummy, Hs16, Hc16, Hna16.
  destruct (recv_data_phase dummy_cycles byte_order env r0
              (1 + 8 + 6 + (D + 1)) _ Hs16 Hc16 Hna16)
    as (Tdata & Tack & Hs21 & Hc21 & Hna21).
  split.
  - rewrite (trace_app _ _ _ 1 8), (trace_app _ _ _ (1 + 8) 6),
      (trace_app _ _ _ (1 + 8 + 6) (D + 1)),
      (trace_app _ _ _ (1 + 8 + 6 + (D + 1)) 4), trace_one.
    rewrite (trace_repeat _ _ _ 1 8 (SEND_CMD, false)) by exact Tcmd.
    rewrite (trace_repeat _ _ _ (1 + 8) 6 (SEND_ADDR, false))
      by exact Taddr.
    rewrite (trace_repeat _ _ _ (1 + 8 + 6) (D + 1)
               (RECV_DATA_DUMMY, false))
      by (intros k Hk; apply Tdummy; lia).
    rewrite (trace_repeat _ _ _ (1 + 8 + 6 + (D + 1)) 4
               (RECV_DATA, false)) by exact Tdata.
    unfold cfg. now rewrite Tack.
  - replace (1 + (8 + (6 + ((D + 1) + (4 + 1)))))%nat
      with (1 + 8 + 6 + (D + 1) + 5)%nat by lia.
    auto.
Qed.

(** A write from [IDLE]: three phases, acknowledged on the last cycle
    of the third. *)
Lemma write_from_idle :
  bus_we (env 8%nat) = true ->
  trace cfg env r0 1 (8 + (6 + (3 + 1))) =
    repeat (SEND_CMD, false) 8 ++
    repeat (SEND_ADDR, false) 6 ++
    repeat (SEND_DATA, false) 3 ++ [(SEND_DATA, true)] /\
  state (at_ (1 + (8 + (6 + (3 + 1))))) = WAIT_SEND_MORE /\
  cycle_counter (at_ (1 + (8 + (6 + (3 + 1))))) = 0 /\
  next_addr (at_ (1 + (8 + (6 + (3 + 1))))) =
    trunc 32 (bus_adr (env 8%nat) + 1).
Proof.
  intros Hwe.
  destruct idle_accepts as [Hs1 Hc1].
  destruct (send_cmd_phase dummy_cycles byte_order env r0 1 Hs1 Hc1)
    as (Tcmd & Hs9 & Hc9 & Hw9 & Hna9 & _).
  change (1 + 7)%nat with 8%nat in Hw9, Hna9. rewrite Hwe in Hw9.
  destruct (send_addr_phase dummy_cycles byte_order env r0 (1 + 8)
              true _ Hs9 Hc9 Hw9 Hna9)
    as (Taddr & Hs15 & Hc15 & Hna15 & _).
  destruct (send_data_phase dummy_cycles byte_order env r0
              (1 + 8 + 6) _ Hs15 Hc15 Hna15)
    as (Tdata & Tack & Hs19 & Hc19 & Hna19).
  split.
  - rewrite (trace_app _ _ _ 1 8), (trace_app _ _ _ (1 + 8) 6),
      (trace_app _ _ _ (1 + 8 + 6) 3), trace_one.
    rewrite (trace_repeat _ _ _ 1 8 (SEND_CMD, false)) by exact Tcmd.
    rewrite (trace_repeat _ _ _ (1 + 8) 6 (SEND_ADDR, false))
      by exact Taddr.
    rewrite (trace_repeat _ _ _ (1 + 8 + 6) 3 (SEND_DATA, false))
      by exact Tdata.
    unfold cfg. now rewrite Tack.
  - auto.
Qed.

End QuadTransactions.

(** ** Reachable registers *)

Section Reachable.

Variable cfg : config.

Lemma steady_tick (r : regs) (i : inputs) :
  steady r -> steady (tick cfg r i).
Proof.
  unfold steady. intros H.
  destruct (state r) eqn:E.
  - rewrite tick_IDLE by assumption. now destruct (pending i).
  - rewrite tick_SEND_CMD by assumption.
    now destruct (cycle_counter r =? _).
  - rewrite tick_SEND_ADDR by assumption.
    now destruct (cycle_counter r =? _), (is_write r).
  - rewrite tick_SEND_DATA by assumption.
    now destruct (cycle_counter r =? _).
  - rewrite tick_RECV_DATA_DUMMY by assumption.
    now destruct (cycle_counter r =? _).
  - rewrite tick_RECV_DATA by assumption.
    now destruct (cycle_counter r =? _).
  - rewrite tick_WAIT_SEND_MORE by assumption.
    destruct (pending i); [|now rewrite E].
    now destruct ((bus_adr i =? next_addr r) && bus_we i).
  - rewrite tick_WAIT_RECV_MORE by assumption.
    destruct (pending i); [|now rewrite E].
    now destruct ((bus_adr i =? next_addr r) && negb (bus_we i)).
Qed.

Lemma steady_run (env : nat -> inputs) (c0 : Z) (t : nat) :
  steady (run cfg env (reset_regs c0) t).
Proof.
  induction t as [|t IH]; [exact I|].
  rewrite run_S. now apply steady_tick.
Qed.

(** Whenever a data phase is entered, the counter is 0. *)
Lemma enter_SEND_DATA (r : regs) (i : inputs) :
  steady r ->
  state r <> SEND_DATA ->
  state (tick cfg r i) = SEND_DATA ->
  cycle_counter (tick cfg r i) = 0.
Proof.
  unfold steady. intros H Hne.
  destruct (state r) eqn:E; try congruence.
  - rewrite tick_IDLE by assumption. now destruct (pending i).
  - rewrite tick_SEND_CMD by assumption.
    now destruct (cycle_counter r =? _).
  - rewrite tick_SEND_ADDR by assumption.
    now destruct (cycle_counter r =? _), (is_write r).
  - rewrite tick_RECV_DATA_DUMMY by assumption.
    now destruct (cycle_counter r =? _).
  - rewrite tick_RECV_DATA by assumption.
    now destruct (cycle_counter r =? _).
  - rewrite tick_WAIT_SEND_MORE by assumption.
    destruct (pending i); [|congruence].
    now destruct ((bus_adr i =? next_addr r) && bus_we i).
  - rewrite tick_WAIT_RECV_MORE by assumption.
    destruct (pending i); [|congruence].
    now destruct ((bus_adr i =? next_addr r) && negb (bus_we i)).
Qed.

End Reachable.

(** ** Write transactions *)

(** C3: whenever the sequencer enters [SEND_DATA], from the address phase
    or from a continued burst, it stays there for [dataWidth/(2*lanes)]
    cycles, acknowledges on the last of them and on no other, and goes to
    [WAIT_SEND_MORE]; the states a write goes through before its data
    phase never acknowledge. *)
Theorem write_data_phase
  (len1 len2 dummy_cycles : Z) (byte_order : string) (cfg : config)
  (env : nat -> inputs) (c0 : Z) (t : nat) :
  construct len1 len2 dummy_cycles byte_order = inr cfg ->
  state (run cfg env (reset_regs c0) t) <> SEND_DATA ->
  state (run cfg env (reset_regs c0) (S t)) = SEND_DATA ->
  let n := Z.to_nat (data_cycles cfg) in
  trace cfg env (reset_regs c0) (S t) n =
    repeat (SEND_DATA, false) (n - 1) ++ [(SEND_DATA, true)] /\
  state (run cfg env (reset_regs c0) (S t + n)) = WAIT_SEND_MORE /\
  (forall t', ack_at cfg env (reset_regs c0) t' = true ->
     state (run cfg env (reset_regs c0) t') <> IDLE /\
     state (run cfg env (reset_regs c0) t') <> SEND_CMD /\
     state (run cfg env (reset_regs c0) t') <> SEND_ADDR /\
     state (run cfg env (reset_regs c0) t') <> WAIT_SEND_MORE).
Proof.
  intros Hc Hne Hs n.
  apply construct_inv in Hc. destruct Hc as (_ & _ & ->).
  change n with 4%nat. clear n.
  assert (Hc0 : cycle_counter (run (quad_config dummy_cycles byte_order)
                                 env (reset_regs c0) (S t)) = 0).
  { rewrite run_S in Hs |- *.
    apply enter_SEND_DATA; [apply steady_run|assumption|assumption]. }
  destruct (send_data_phase dummy_cycles byte_order env (reset_regs c0)
              (S t) _ Hs Hc0 eq_refl)
    as (Tdata & Tack & Hwait & _).
  split; [|split].
  - change 4%nat with (3 + 1)%nat.
    rewrite (trace_app _ _ _ (S t) 3), trace_one.
    rewrite (trace_repeat _ _ _ (S t) 3 (SEND_DATA, false)) by exact Tdata.
    now rewrite Tack.
  - exact Hwait.
  - intros t' Hack. unfold ack_at in Hack. rewrite bus_ack_comb in Hack.
    destruct (state (run _ env (reset_regs c0) t'));
      repeat split; congruence.
Qed.

Lemma write_data_phase_witness :
  let cfg := quad_config 5 "big" in
  let env := write_env 0 0x12345678 in
  trace cfg env (reset_regs 0) 15 4 =
    repeat (SEND_DATA, false) 3 ++ [(SEND_DATA, true)] /\
  state (run cfg env (reset_regs 0) (15 + 4)) = WAIT_SEND_MORE /\
  (forall t', ack_at cfg env (reset_regs 0) t' = true ->
     state (run cfg env (reset_regs 0) t') <> IDLE /\
     state (run cfg env (reset_regs 0) t') <> SEND_CMD /\
     state (run cfg env (reset_regs 0) t') <> SEND_ADDR /\
     state (run cfg env (reset_regs 0) t') <> WAIT_SEND_MORE).
Proof.
  apply (write_data_phase 4 4 5 "big" (quad_config 5 "big")
           (write_env 0 0x12345678) 0 14).
  - reflexivity.
  - vm_compute. discriminate.
  - vm_compute. reflexivity.
Defined.

(** ** Counting the cycles of a transaction *)

Section CyclesToAck.

Variable cfg : config.
Variable env : nat -> inputs.
Variable r0 : regs.

Lemma trace_no_ack (t0 n : nat) (l : list (fsm_state * bool)) :
  trace cfg env r0 t0 n = l ->
  (forall x, In x l -> snd x = false) ->
  forall k, (k < n)%nat -> ack_at cfg env r0 (t0 + k) = false.
Proof.
  intros Ht Hl k Hk.
  change (snd (observe cfg env r0 (t0 + k)) = false).
  apply Hl. rewrite <- Ht. unfold trace.
  apply in_map, in_seq. lia.
Qed.

Lemma cycles_to_ack_trace
  (fuel t0 n : nat) (l : list (fsm_state * bool)) (s : fsm_state) :
  trace cfg env r0 t0 (n + 1) = l ++ [(s, true)] ->
  (forall x, In x l -> snd x = false) ->
  (n < fuel)%nat ->
  cycles_to_ack cfg env r0 fuel t0 = Some (n + 1)%nat.
Proof.
  intros Ht Hl Hf.
  rewrite trace_app, trace_one in Ht.
  apply app_inj_tail in Ht. destruct Ht as [Ht Ho].
  unfold cycles_to_ack.
  rewrite (first_ack_found cfg env r0 fuel t0 n).
  - f_equal. lia.
  - now apply (trace_no_ack t0 n l).
  - change (snd (observe cfg env r0 (t0 + n)) = true). now rewrite Ho.
  - assumption.
Qed.

End CyclesToAck.

Lemma In_repeat_eq {A : Type} (a x : A) (n : nat) :
  In x (repeat a n) -> x = a.
Proof. intros H. now apply repeat_spec with (n := n). Qed.

(** ** Read transactions *)

(** C2, as stated, fails: with the default 5 dummy cycles a read from
    [IDLE] is acknowledged on the 25th cycle after the entry into
    [SEND_CMD], not the 23rd; 6 of these cycles are spent in
    [RECV_DATA_DUMMY], not 5, and 5 in [RECV_DATA], not 4. *)
Lemma read_cycles_counterexample :
  construct 4 4 5 "big" = inr (quad_config 5 "big") /\
  cycles_to_ack (quad_config 5 "big") (read_env 0) (reset_regs 0) 64 1 <>
    Some (Z.to_nat (claimed_read_cycles (quad_config 5 "big"))) /\
  cycles_in RECV_DATA_DUMMY
    (trace (quad_config 5 "big") (read_env 0) (reset_regs 0) 1 25) <>
    Z.to_nat (dummy (quad_config 5 "big")) /\
  cycles_in RECV_DATA
    (trace (quad_config 5 "big") (read_env 0) (reset_regs 0) 1 25) <>
    Z.to_nat (data_cycles (quad_config 5 "big")).
Proof.
  split; [reflexivity|].
  split; [|split]; vm_compute; intros H; discriminate H.
Qed.

(** C2, amended: for a dummy count that fits the 5-bit counter, a read
    accepted in [IDLE] spends [cmd_width/spi_width] cycles in [SEND_CMD],
    [addr_width/spi_width] in [SEND_ADDR], [dummy + 1] in
    [RECV_DATA_DUMMY] and [wbone_width/(2*spi_width) + 1] in [RECV_DATA],
    acknowledges on the last of these cycles and on no other, and goes to
    [WAIT_RECV_MORE]. *)
Theorem read_transaction_cycles
  (len1 len2 dummy_cycles : Z) (byte_order : string) (cfg : config)
  (env : nat -> inputs) (r0 : regs) :
  construct len1 len2 dummy_cycles byte_order = inr cfg ->
  0 <= dummy_cycles < 2 ^ 5 ->
  state r0 = IDLE ->
  (forall t, (t <= Z.to_nat (command_cycles cfg))%nat ->
     pending (env t) = true /\ bus_we (env t) = false) ->
  trace cfg env r0 1 (read_cycles cfg) =
    repeat (SEND_CMD, false) (Z.to_nat (command_cycles cfg)) ++
    repeat (SEND_ADDR, false) (Z.to_nat (address_cycles cfg)) ++
    repeat (RECV_DATA_DUMMY, false) (dummy_phase_cycles cfg) ++
    repeat (RECV_DATA, false) (recv_phase_cycles cfg - 1) ++
    [(RECV_DATA, true)] /\
  state (run cfg env r0 (1 + read_cycles cfg)) = WAIT_RECV_MORE /\
  cycles_to_ack cfg env r0 (1 + read_cycles cfg) 1 = Some (read_cycles cfg).
Proof.
  intros Hc Hd Hidle Hreq.
  apply construct_inv in Hc. destruct Hc as (_ & _ & ->).
  change (Z.to_nat (command_cycles (quad_config dummy_cycles byte_order)))
    with 8%nat in *.
  change (Z.to_nat (address_cycles (quad_config dummy_cycles byte_order)))
    with 6%nat.
  change (recv_phase_cycles (quad_config dummy_cycles byte_order))
    with 5%nat.
  assert (Ed : dummy_phase_cycles (quad_config dummy_cycles byte_order) =
               (Z.to_nat dummy_cycles + 1)%nat).
  { unfold dummy_phase_cycles. simpl dummy. rewrite Z2Nat.inj_add; lia. }
  assert (Er : read_cycles (quad_config dummy_cycles byte_order) =
               (8 + (6 + ((Z.to_nat dummy_cycles + 1) + (4 + 1))))%nat).
  { unfold read_cycles. rewrite Ed.
    change (Z.to_nat (command_cycles (quad_config dummy_cycles byte_order)))
      with 8%nat.
    change (Z.to_nat (address_cycles (quad_config dummy_cycles byte_order)))
      with 6%nat.
    change (recv_phase_cycles (quad_config dummy_cycles byte_order))
      with 5%nat.
    lia. }
  destruct (Hreq 0%nat ltac:(lia)) as [Hp0 _].
  destruct (Hreq 8%nat ltac:(lia)) as [_ Hwe8].
  destruct (read_from_idle dummy_cycles byte_order env r0 Hidle Hp0 Hd Hwe8)
    as (Htrace & Hstate & _).
  rewrite Ed, Er. change (5 - 1)%nat with 4%nat.
  split; [exact Htrace|]. split; [exact Hstate|].
  replace (8 + (6 + (Z.to_nat dummy_cycles + 1 + (4 + 1))))%nat
    with ((8 + (6 + (Z.to_nat dummy_cycles + 1 + 4))) + 1)%nat in Htrace |- *
    by lia.
  rewrite !app_assoc in Htrace.
  apply (cycles_to_ack_trace _ _ _ _ _ _ _ _ Htrace); [|lia].
  intros x Hx.
  repeat (apply in_app_or in Hx; destruct Hx as [Hx|Hx]);
    apply In_repeat_eq in Hx; now subst x.
Qed.

Lemma read_transaction_cycles_witness :
  trace (quad_config 5 "big") (read_env 0) (reset_regs 0) 1
    (read_cycles (quad_config 5 "big")) =
    repeat (SEND_CMD, false)
      (Z.to_nat (command_cycles (quad_config 5 "big"))) ++
    repeat (SEND_ADDR, false)
      (Z.to_nat (address_cycles (quad_config 5 "big"))) ++
    repeat (RECV_DATA_DUMMY, false)
      (dummy_phase_cycles (quad_config 5 "big")) ++
    repeat (RECV_DATA, false) (recv_phase_cycles (quad_config 5 "big") - 1) ++
    [(RECV_DATA, true)] /\
  state (run (quad_config 5 "big") (read_env 0) (reset_regs 0)
           (1 + read_cycles (quad_config 5 "big"))) = WAIT_RECV_MORE /\
  cycles_to_ack (quad_config 5 "big") (read_env 0) (reset_regs 0)
    (1 + read_cycles (quad_config 5 "big")) 1 =
    Some (read_cycles (quad_config 5 "big")).
Proof.
  apply (read_transaction_cycles 4 4 5 "big" (quad_config 5 "big")
           (read_env 0) (reset_regs 0)).
  - reflexivity.
  - lia.
  - reflexivity.
  - intros t _. split; reflexivity.
Defined.

(** ** Burst continuation *)

(** C1, as stated, fails for reads: after a read at address 0, a read at
    address 1 found pending in [WAIT_RECV_MORE] (cycle 26) takes the FSM to
    [RECV_DATA] in the next cycle, with no cycle in [RECV_DATA_DUMMY]
    before its acknowledgment. *)
Lemma continued_read_counterexample :
  state (run (quad_config 5 "big") read_read_env (reset_regs 0) 26) =
    wait_more false /\
  pending (read_read_env 26) = true /\
  bus_we (read_read_env 26) = false /\
  bus_adr (read_read_env 26) =
    next_addr (run (quad_config 5 "big") read_read_env (reset_regs 0) 26) /\
  state (run (quad_config 5 "big") read_read_env (reset_regs 0) 27) <>
    RECV_DATA_DUMMY /\
  trace (quad_config 5 "big") read_read_env (reset_regs 0) 27 5 =
    repeat (RECV_DATA, false) 4 ++ [(RECV_DATA, true)] /\
  cycles_in RECV_DATA_DUMMY
    (trace (quad_config 5 "big") read_read_env (reset_regs 0) 26 7) = 0%nat.
Proof.
  repeat split; try (vm_compute; reflexivity).
  vm_compute. intros H. discriminate H.
Qed.

(** C1, amended: in [WaitMore(dir)], a pending request of the same
    direction at [next_addr] takes the FSM in one cycle to [SEND_DATA] for
    a write and to [RECV_DATA] for a read, with no command, address or
    dummy cycle, and sets [next_addr] to the new address plus 1; the shift
    register and the cycle counter are left as they are. *)
Theorem burst_continuation
  (cfg : config) (r : regs) (i : inputs) (write : bool) :
  state r = wait_more write ->
  pending i = true ->
  bus_we i = write ->
  bus_adr i = next_addr r ->
  0 <= bus_adr i < 2 ^ wishbone_adr_width ->
  state (tick cfg r i) = (if write then SEND_DATA else RECV_DATA) /\
  next_addr (tick cfg r i) = bus_adr i + 1 /\
  sr (tick cfg r i) = sr r /\
  cycle_counter (tick cfg r i) = cycle_counter r.
Proof.
  intros Hs Hp Hw Ha Hr.
  assert (Ht : trunc 32 (bus_adr i + 1) = bus_adr i + 1).
  { apply trunc_small. unfold wishbone_adr_width in Hr. lia. }
  destruct write; simpl in Hs.
  - rewrite tick_WAIT_SEND_MORE, Hp, Hw, Ha, Z.eqb_refl by assumption.
    simpl. rewrite <- Ha. auto.
  - rewrite tick_WAIT_RECV_MORE, Hp, Hw, Ha, Z.eqb_refl by assumption.
    simpl. rewrite <- Ha. auto.
Qed.

Lemma burst_continuation_witness :
  state (tick (quad_config 5 "big")
           (Regs WAIT_RECV_MORE 0 false 1 0) (request false 1 0)) =
    RECV_DATA /\
  next_addr (tick (quad_config 5 "big")
               (Regs WAIT_RECV_MORE 0 false 1 0) (request false 1 0)) =
    1 + 1 /\
  sr (tick (quad_config 5 "big")
        (Regs WAIT_RECV_MORE 0 false 1 0) (request false 1 0)) = 0 /\
  cycle_counter (tick (quad_config 5 "big")
                   (Regs WAIT_RECV_MORE 0 false 1 0) (request false 1 0)) = 0.
Proof.
  apply (burst_continuation (quad_config 5 "big")
           (Regs WAIT_RECV_MORE 0 false 1 0) (request false 1 0) false).
  - reflexivity.
  - reflexivity.
  - reflexivity.
  - reflexivity.
  - unfold wishbone_adr_width. simpl. lia.
Defined.

(** ** Construction, again *)

(** C5, as stated, fails: one lane is in {1,2,4} and the two devices
    agree, yet [assert spi_width >= 2] refuses to build. *)
Lemma construct_counterexample :
  (1 = 1 \/ 1 = 2 \/ 1 = 4) /\
  construct 1 1 5 "big" = inl AssertionError /\
  ~ (exists cfg, construct 1 1 5 "big" = inr cfg).
Proof.
  split; [now left|]. split; [reflexivity|].
  intros [cfg H]. discriminate H.
Qed.

(** C5, amended: construction succeeds when both devices have 4 lanes; it
    fails, before any logic exists, whenever the lane count is below 2
    (one lane included), is not one of 1, 2 and 4, or differs between the
    two devices; and a construction that succeeds has fixed the lane count
    of both devices to the same value, one of 1, 2 and 4. *)
Theorem construct_lanes (len1 len2 dummy_cycles : Z) (byte_order : string) :
  (len1 = 4 -> len2 = 4 ->
   construct len1 len2 dummy_cycles byte_order =
     inr (quad_config dummy_cycles byte_order)) /\
  (len1 < 2 \/ len1 <> len2 ->
   construct len1 len2 dummy_cycles byte_order = inl AssertionError) /\
  (~ (len1 = 1 \/ len1 = 2 \/ len1 = 4) ->
   exists e, construct len1 len2 dummy_cycles byte_order = inl e) /\
  (forall cfg, construct len1 len2 dummy_cycles byte_order = inr cfg ->
   (len1 = 1 \/ len1 = 2 \/ len1 = 4) /\ len1 = len2 /\
   spi_width cfg = len1).
Proof.
  split; [|split; [|split]].
  - intros -> ->. reflexivity.
  - intros H. unfold construct.
    destruct (Z.leb_spec 2 len1); simpl; [|reflexivity].
    destruct (Z.eqb_spec len1 len2); simpl; [lia|reflexivity].
  - intros H.
    destruct (construct len1 len2 dummy_cycles byte_order) as [e|cfg] eqn:E;
      [now exists e|].
    apply construct_inv in E. lia.
  - intros cfg H. apply construct_inv in H.
    destruct H as (-> & -> & ->). simpl. lia.
Qed.

Lemma construct_lanes_witness :
  construct 4 4 5 "big" = inr (quad_config 5 "big") /\
  construct 1 1 5 "big" = inl AssertionError /\
  (exists e, construct 3 3 5 "big" = inl e) /\
  ((4 = 1 \/ 4 = 2 \/ 4 = 4) /\ 4 = 4 /\
   spi_width (quad_config 5 "big") = 4).
Proof.
  destruct (construct_lanes 4 4 5 "big") as (H1 & _ & _ & H4).
  destruct (construct_lanes 1 1 5 "big") as (_ & H2 & _).
  destruct (construct_lanes 3 3 5 "big") as (_ & _ & H3 & _).
  split; [apply H1; reflexivity|].
  split; [apply H2; left; lia|].
  split; [apply H3; lia|].
  apply (H4 (quad_config 5 "big")). reflexivity.
Defined.

(** ** Restarting from [IDLE] *)

Section SameControl.

Variable cfg : config.

Lemma same_control_tick (r1 r2 : regs) (i : inputs) :
  same_control r1 r2 -> same_control (tick cfg r1 i) (tick cfg r2 i).
Proof.
  unfold same_control. intros [Hs H].
  destruct (state r1) eqn:E1; symmetry in Hs.
  - rewrite !tick_IDLE by assumption. now destruct (pending i).
  - rewrite !tick_SEND_CMD by assumption. rewrite <- H.
    now destruct (cycle_counter r1 =? _).
  - rewrite !tick_SEND_ADDR by assumption.
    destruct H as (<- & <- & <-).
    now destruct (cycle_counter r1 =? _), (is_write r1).
  - rewrite !tick_SEND_DATA by assumption.
    destruct H as (<- & <- & <-).
    now destruct (cycle_counter r1 =? _).
  - rewrite !tick_RECV_DATA_DUMMY by assumption.
    destruct H as (<- & <- & <-).
    now destruct (cycle_counter r1 =? _).
  - rewrite !tick_RECV_DATA by assumption.
    destruct H as (<- & <- & <-).
    now destruct (cycle_counter r1 =? _).
  - rewrite !tick_WAIT_SEND_MORE by assumption.
    destruct H as (Hc & Hw & Hn). rewrite <- Hn.
    destruct (pending i); [|now rewrite E1, Hs].
    now destruct ((bus_adr i =? next_addr r1) && bus_we i).
  - rewrite !tick_WAIT_RECV_MORE by assumption.
    destruct H as (Hc & Hw & Hn). rewrite <- Hn.
    destruct (pending i); [|now rewrite E1, Hs].
    now destruct ((bus_adr i =? next_addr r1) && negb (bus_we i)).
Qed.

Lemma same_control_run (env : nat -> inputs) (r1 r2 : regs) (n : nat) :
  same_control r1 r2 ->
  same_control (run cfg env r1 n) (run cfg env r2 n).
Proof.
  intros H. induction n as [|n IH]; [exact H|].
  rewrite !run_S. now apply same_control_tick.
Qed.

Lemma same_control_ack (r1 r2 : regs) (i : inputs) :
  same_control r1 r2 ->
  bus_ack (comb cfg r1 i) = bus_ack (comb cfg r2 i).
Proof.
  unfold same_control. intros [Hs H]. rewrite !bus_ack_comb, <- Hs.
  destruct (state r1); try reflexivity; now destruct H as (<- & _).
Qed.

Lemma same_control_observe
  (env : nat -> inputs) (r1 r2 : regs) (n : nat) :
  same_control r1 r2 ->
  observe cfg env r1 n = observe cfg env r2 n.
Proof.
  intros H. apply (same_control_run env r1 r2 n) in H.
  unfold observe, ack_at.
  rewrite (same_control_ack _ _ _ H). now destruct H as [-> _].
Qed.

Lemma same_control_first_ack
  (env : nat -> inputs) (r1 r2 : regs) (fuel t0 : nat) :
  same_control r1 r2 ->
  first_ack cfg env r1 fuel t0 = first_ack cfg env r2 fuel t0.
Proof.
  intros H. revert t0.
  induction fuel as [|fuel IH]; intros t0; simpl; [reflexivity|].
  unfold ack_at.
  rewrite (same_control_ack _ _ _ (same_control_run env r1 r2 t0 H)).
  now rewrite IH.
Qed.

End SameControl.

Lemma command_address_from_idle
  (dummy_cycles : Z) (byte_order : string) (env : nat -> inputs) (r0 : regs) :
  state r0 = IDLE ->
  pending (env 0%nat) = true ->
  trace (quad_config dummy_cycles byte_order) env r0 1 (8 + 6) =
    repeat (SEND_CMD, false) 8 ++ repeat (SEND_ADDR, false) 6.
Proof.
  intros Hidle Hp.
  destruct (idle_accepts dummy_cycles byte_order env r0 Hidle Hp)
    as [Hs1 Hc1].
  destruct (send_cmd_phase dummy_cycles byte_order env r0 1 Hs1 Hc1)
    as (Tcmd & Hs9 & Hc9 & _).
  destruct (send_addr_phase dummy_cycles byte_order env r0 (1 + 8)
              _ _ Hs9 Hc9 eq_refl eq_refl)
    as (Taddr & _).
  rewrite (trace_app _ _ _ 1 8).
  rewrite (trace_repeat _ _ _ 1 8 (SEND_CMD, false)) by exact Tcmd.
  now rewrite (trace_repeat _ _ _ (1 + 8) 6 (SEND_ADDR, false))
    by exact Taddr.
Qed.

(** C6: in [WaitMore(dir)], a pending request of the other direction, or
    at another address than [next_addr], takes the FSM to [IDLE]; from
    there the command and address phases run in full for the request, and
    the states and acknowledgments of every later cycle, hence the cycle
    count of the transaction, are those of the same inputs applied to the
    sequencer out of reset. *)
Theorem no_continuation_restarts
  (len1 len2 dummy_cycles : Z) (byte_order : string) (cfg : config)
  (r : regs) (i : inputs) (write : bool) (c0 : Z) :
  construct len1 len2 dummy_cycles byte_order = inr cfg ->
  state r = wait_more write ->
  pending i = true ->
  bus_we i <> write \/ bus_adr i <> next_addr r ->
  state (tick cfg r i) = IDLE /\
  (forall env, pending (env 0%nat) = true ->
     trace cfg env (tick cfg r i) 1
       (Z.to_nat (command_cycles cfg) + Z.to_nat (address_cycles cfg)) =
     repeat (SEND_CMD, false) (Z.to_nat (command_cycles cfg)) ++
     repeat (SEND_ADDR, false) (Z.to_nat (address_cycles cfg))) /\
  (forall env n,
     observe cfg env (tick cfg r i) n =
     observe cfg env (reset_regs c0) n) /\
  (forall env fuel t0,
     cycles_to_ack cfg env (tick cfg r i) fuel t0 =
     cycles_to_ack cfg env (reset_regs c0) fuel t0).
Proof.
  intros Hc Hs Hp Hdiff.
  apply construct_inv in Hc. destruct Hc as (_ & _ & ->).
  assert (Hidle : state (tick (quad_config dummy_cycles byte_order) r i)
                  = IDLE).
  { destruct write; simpl in Hs.
    - rewrite tick_WAIT_SEND_MORE, Hp by assumption.
      destruct (Z.eqb_spec (bus_adr i) (next_addr r)) as [Ha|Ha];
        [|reflexivity].
      destruct (bus_we i); [|reflexivity].
      destruct Hdiff as [Hd|Hd]; congruence.
    - rewrite tick_WAIT_RECV_MORE, Hp by assumption.
      destruct (Z.eqb_spec (bus_adr i) (next_addr r)) as [Ha|Ha];
        [|reflexivity].
      destruct (bus_we i); [reflexivity|].
      destruct Hdiff as [Hd|Hd]; congruence. }
  assert (Hsame : same_control
                    (tick (quad_config dummy_cycles byte_order) r i)
                    (reset_regs c0)).
  { unfold same_control. now rewrite Hidle. }
  split; [exact Hidle|]. split; [|split].
  - intros env Hp0.
    now apply command_address_from_idle.
  - intros env n. now apply same_control_observe.
  - intros env fuel t0. unfold cycles_to_ack.
    now rewrite (same_control_first_ack _ env _ _ fuel t0 Hsame).
Qed.

Lemma no_continuation_restarts_witness :
  state (tick (quad_config 5 "big")
           (Regs WAIT_RECV_MORE 0 false 1 0) (request true 1 0xdead)) =
    IDLE /\
  (forall env, pending (env 0%nat) = true ->
     trace (quad_config 5 "big") env
       (tick (quad_config 5 "big")
          (Regs WAIT_RECV_MORE 0 false 1 0) (request true 1 0xdead)) 1
       (Z.to_nat (command_cycles (quad_config 5 "big")) +
        Z.to_nat (address_cycles (quad_config 5 "big"))) =
     repeat (SEND_CMD, false)
       (Z.to_nat (command_cycles (quad_config 5 "big"))) ++
     repeat (SEND_ADDR, false)
       (Z.to_nat (address_cycles (quad_config 5 "big")))) /\
  (forall env n,
     observe (quad_config 5 "big") env
       (tick (quad_config 5 "big")
          (Regs WAIT_RECV_MORE 0 false 1 0) (request true 1 0xdead)) n =
     observe (quad_config 5 "big") env (reset_regs 0) n) /\
  (forall env fuel t0,
     cycles_to_ack (quad_config 5 "big") env
       (tick (quad_config 5 "big")
          (Regs WAIT_RECV_MORE 0 false 1 0) (request true 1 0xdead))
       fuel t0 =
     cycles_to_ack (quad_config 5 "big") env (reset_regs 0) fuel t0).
Proof.
  apply (no_continuation_restarts 4 4 5 "big" (quad_config 5 "big")
           (Regs WAIT_RECV_MORE 0 false 1 0) (request true 1 0xdead)
           false 0).
  - reflexivity.
  - reflexivity.
  - reflexivity.
  - left. simpl. discriminate.
Defined.

(** ** A dummy count that does not fit the counter *)

Lemma trunc_range (width v : Z) : 0 <= width -> 0 <= trunc width v < 2 ^ width.
Proof.
  intros H. unfold trunc. apply Z.mod_pos_bound.
  now apply Z.pow_pos_nonneg.
Qed.

Lemma observe_ack
  (cfg : config) (env : nat -> inputs) (r : regs) (t : nat)
  (s : fsm_state) (b : bool) :
  observe cfg env r t = (s, b) -> ack_at cfg env r t = b.
Proof.
  unfold observe. generalize (ack_at cfg env r t).
  generalize (state (run cfg env r t)).
  intros s' b' H. now injection H.
Qed.

Lemma dummy_phase_stuck
  (dummy_cycles : Z) (byte_order : string) (env : nat -> inputs) (r0 : regs)
  (t0 : nat) :
  2 ^ 5 <= dummy_cycles ->
  state (run (quad_config dummy_cycles byte_order) env r0 t0) =
    RECV_DATA_DUMMY ->
  0 <= cycle_counter (run (quad_config dummy_cycles byte_order) env r0 t0)
    < 2 ^ 5 ->
  forall k,
    state (run (quad_config dummy_cycles byte_order) env r0 (t0 + k)) =
      RECV_DATA_DUMMY /\
    0 <= cycle_counter
           (run (quad_config dummy_cycles byte_order) env r0 (t0 + k))
      < 2 ^ 5.
Proof.
  intros Hd Hs Hc k.
  induction k as [|k [IHs IHc]].
  - now rewrite Nat.add_0_r.
  - rewrite Nat.add_succ_r, run_S, tick_RECV_DATA_DUMMY by assumption.
    change (dummy (quad_config dummy_cycles byte_order)) with dummy_cycles.
    destruct (Z.eqb_spec
                (cycle_counter
                   (run (quad_config dummy_cycles byte_order) env r0
                      (t0 + k))) dummy_cycles) as [E|_]; [lia|].
    simpl. split; [reflexivity|]. apply trunc_range. lia.
Qed.

(** C10: the cycle counter has 5 bits (it wraps from 31 to 0); with a
    dummy count of 32 or more, the sequencer never leaves
    [RECV_DATA_DUMMY] once it is there, whatever the inputs, and a read
    accepted in [IDLE] gets there and is never acknowledged. *)
Theorem dummy_overflow_never_acks
  (len1 len2 dummy_cycles : Z) (byte_order : string) (cfg : config)
  (env : nat -> inputs) :
  construct len1 len2 dummy_cycles byte_order = inr cfg ->
  2 ^ 5 <= dummy_cycles ->
  (forall r i, state r = RECV_DATA_DUMMY ->
     cycle_counter r = 2 ^ 5 - 1 ->
     state (tick cfg r i) = RECV_DATA_DUMMY /\
     cycle_counter (tick cfg r i) = 0) /\
  (forall r, state r = RECV_DATA_DUMMY ->
     0 <= cycle_counter r < 2 ^ 5 ->
     forall n,
       state (run cfg env r n) = RECV_DATA_DUMMY /\
       ack_at cfg env r n = false) /\
  (forall r0, state r0 = IDLE ->
     pending (env 0%nat) = true ->
     bus_we (env (Z.to_nat (command_cycles cfg))) = false ->
     state (run cfg env r0
              (1 + Z.to_nat (command_cycles cfg) +
               Z.to_nat (address_cycles cfg))) = RECV_DATA_DUMMY /\
     forall t, ack_at cfg env r0 t = false).
Proof.
  intros Hc Hd.
  apply construct_inv in Hc. destruct Hc as (_ & _ & ->).
  split; [|split].
  - intros r i Hs Hcnt. rewrite tick_RECV_DATA_DUMMY by assumption.
    change (dummy (quad_config dummy_cycles byte_order)) with dummy_cycles.
    destruct (Z.eqb_spec (cycle_counter r) dummy_cycles) as [E|_]; [lia|].
    simpl. rewrite Hcnt. split; reflexivity.
  - intros r Hs Hcnt n.
    destruct (dummy_phase_stuck dummy_cycles byte_order env r 0 Hd Hs Hcnt n)
      as [Hn _].
    simpl in Hn. split; [exact Hn|].
    unfold ack_at. now rewrite bus_ack_comb, Hn.
  - intros r0 Hidle Hp Hwe.
    change (Z.to_nat (command_cycles (quad_config dummy_cycles byte_order)))
      with 8%nat in *.
    change (Z.to_nat (address_cycles (quad_config dummy_cycles byte_order)))
      with 6%nat.
    destruct (idle_accepts dummy_cycles byte_order env r0 Hidle Hp)
      as [Hs1 Hc1].
    destruct (send_cmd_phase dummy_cycles byte_order env r0 1 Hs1 Hc1)
      as (Tcmd & Hs9 & Hc9 & Hw9 & _).
    change (1 + 7)%nat with 8%nat in Hw9. rewrite Hwe in Hw9.
    destruct (send_addr_phase dummy_cycles byte_order env r0 (1 + 8)
                false _ Hs9 Hc9 Hw9 eq_refl)
      as (Taddr & Hs15 & Hc15 & _).
    split; [exact Hs15|].
    intros t.
    assert (Hcases : t = 0%nat \/
                     (exists k, (k < 8)%nat /\ t = (1 + k)%nat) \/
                     (exists k, (k < 6)%nat /\ t = (1 + 8 + k)%nat) \/
                     exists k, t = (1 + 8 + 6 + k)%nat).
    { destruct (Nat.eq_dec t 0%nat) as [?|?]; [now left|right].
      destruct (Nat.lt_ge_cases t 9%nat) as [?|?];
        [left; exists (t - 1)%nat; lia|right].
      destruct (Nat.lt_ge_cases t 15%nat) as [?|?];
        [left; exists (t - 9)%nat; lia|right].
      exists (t - 15)%nat. lia. }
    destruct Hcases as [->|[(k & Hk & ->)|[(k & Hk & ->)|(k & ->)]]].
    + unfold ack_at. rewrite bus_ack_comb. simpl run. now rewrite Hidle.
    + exact (observe_ack _ _ _ _ _ _ (Tcmd k Hk)).
    + exact (observe_ack _ _ _ _ _ _ (Taddr k Hk)).
    + destruct (dummy_phase_stuck dummy_cycles byte_order env r0
                  (1 + 8 + 6) Hd Hs15 ltac:(rewrite Hc15; lia) k)
        as [Hn _].
      unfold ack_at. now rewrite bus_ack_comb, Hn.
Qed.

Lemma dummy_overflow_never_acks_witness :
  (forall r i, state r = RECV_DATA_DUMMY ->
     cycle_counter r = 2 ^ 5 - 1 ->
     state (tick (quad_config 32 "big") r i) = RECV_DATA_DUMMY /\
     cycle_counter (tick (quad_config 32 "big") r i) = 0) /\
  (forall r, state r = RECV_DATA_DUMMY ->
     0 <= cycle_counter r < 2 ^ 5 ->
     forall n,
       state (run (quad_config 32 "big") (read_env 0) r n) =
         RECV_DATA_DUMMY /\
       ack_at (quad_config 32 "big") (read_env 0) r n = false) /\
  (forall r0, state r0 = IDLE ->
     pending (read_env 0 0%nat) = true ->
     bus_we (read_env 0 (Z.to_nat (command_cycles (quad_config 32 "big"))))
       = false ->
     state (run (quad_config 32 "big") (read_env 0) r0
              (1 + Z.to_nat (command_cycles (quad_config 32 "big")) +
               Z.to_nat (address_cycles (quad_config 32 "big")))) =
       RECV_DATA_DUMMY /\
     forall t, ack_at (quad_config 32 "big") (read_env 0) r0 t = false).
Proof.
  apply (dummy_overflow_never_acks 4 4 32 "big" (quad_config 32 "big")
           (read_env 0)).
  - reflexivity.
  - simpl. lia.
Defined.

(** ** The transmit path *)

Lemma testbit_trunc (width v i : Z) :
  0 <= width -> 0 <= i ->
  Z.testbit (trunc width v) i = (i <? width) && Z.testbit v i.
Proof.
  intros Hw Hi. unfold trunc.
  destruct (Z.ltb_spec i width).
  - now rewrite Z.mod_pow2_bits_low by lia.
  - now rewrite Z.mod_pow2_bits_high by lia.
Qed.

Lemma testbit_slice (v lo hi i : Z) :
  0 <= lo <= hi -> 0 <= i ->
  Z.testbit (slice v lo hi) i = (i <? hi - lo) && Z.testbit v (i + lo).
Proof.
  intros Hl Hi. unfold slice.
  rewrite testbit_trunc, Z.shiftr_spec by lia. reflexivity.
Qed.

(** A slice of a register that was moved up by [j] bits is the slice [j]
    bits lower of the register before the move. *)
Lemma slice_moved_up (width v j lo hi : Z) :
  0 <= j <= lo -> lo <= hi <= width ->
  slice (trunc width (v * 2 ^ j)) lo hi = slice v (lo - j) (hi - j).
Proof.
  intros Hj Hl. apply Z.bits_inj'. intros i Hi.
  rewrite !testbit_slice, testbit_trunc by lia.
  replace (hi - j - (lo - j)) with (hi - lo) by lia.
  destruct (Z.ltb_spec i (hi - lo)); [|reflexivity].
  destruct (Z.ltb_spec (i + lo) width); [|lia].
  rewrite Z.mul_pow2_bits by lia.
  simpl. f_equal. lia.
Qed.

Lemma shifted_moves_up (cfg : config) (k : Z) (r : regs) :
  0 <= k -> 0 <= sr_width cfg ->
  shifted cfg k r = trunc (sr_width cfg) (sr r * 2 ^ k).
Proof.
  intros Hk Hw. unfold shifted, Cat, trunc.
  rewrite Z.mod_0_l by (apply Z.pow_nonzero; lia).
  rewrite Z.shiftl_0_l, Z.lor_0_r, Z.lor_0_l, Z.shiftl_mul_pow2 by lia.
  now rewrite Z.mul_mod_idemp_l by (apply Z.pow_nonzero; lia).
Qed.

Lemma send_data_slices
  (dummy_cycles : Z) (byte_order : string) (env : nat -> inputs) (r0 : regs)
  (t0 k : nat) (lo hi : Z) :
  state (run (quad_config dummy_cycles byte_order) env r0 t0) = SEND_DATA ->
  cycle_counter (run (quad_config dummy_cycles byte_order) env r0 t0) = 0 ->
  Z.of_nat k <= 3 ->
  8 * Z.of_nat k <= lo -> lo <= hi <= 32 ->
  state (run (quad_config dummy_cycles byte_order) env r0 (t0 + k)) =
    SEND_DATA /\
  slice (sr (run (quad_config dummy_cycles byte_order) env r0 (t0 + k)))
    lo hi =
  slice (sr (run (quad_config dummy_cycles byte_order) env r0 t0))
    (lo - 8 * Z.of_nat k) (hi - 8 * Z.of_nat k).
Proof.
  intros Hs Hc Hk Hlo Hhi.
  set (cfg := quad_config dummy_cycles byte_order) in *.
  set (D := sr (run cfg env r0 t0)).
  destruct (counting cfg SEND_DATA 3
              (fun k r => forall lo hi,
                 8 * Z.of_nat k <= lo -> lo <= hi <= 32 ->
                 slice (sr r) lo hi =
                 slice D (lo - 8 * Z.of_nat k) (hi - 8 * Z.of_nat k)))
    with (env := env) (r0 := r0) (t0 := t0) (k := k)
    as (Hsk & _ & Hq); try assumption.
  - simpl. lia.
  - intros r i Hr Hne. rewrite tick_SEND_DATA by assumption.
    change (wbone_width cfg / spi_width cfg / 2 - 1) with 3.
    destruct (Z.eqb_spec (cycle_counter r) 3); [lia|now simpl].
  - intros j r i Hr Hcj Hlt Hq lo' hi' Hlo' Hhi'.
    rewrite tick_SEND_DATA by assumption. cbn [sr].
    change (cmd_width cfg - wbone_width cfg + spi_width cfg * 2) with 8.
    rewrite shifted_moves_up by (simpl; lia).
    change (sr_width cfg) with 32.
    rewrite slice_moved_up by lia.
    rewrite Hq by lia. f_equal; lia.
  - intros lo' hi' _ _. unfold D. f_equal; lia.
  - split; [exact Hsk|]. now apply Hq.
Qed.

Lemma send_data_outputs
  (dummy_cycles : Z) (byte_order : string) (env : nat -> inputs) (r0 : regs)
  (t0 k : nat) :
  state (run (quad_config dummy_cycles byte_order) env r0 t0) = SEND_DATA ->
  cycle_counter (run (quad_config dummy_cycles byte_order) env r0 t0) = 0 ->
  Z.of_nat k < 4 ->
  state (run (quad_config dummy_cycles byte_order) env r0 (t0 + k)) =
    SEND_DATA /\
  dq1_o (quad_config dummy_cycles byte_order)
    (run (quad_config dummy_cycles byte_order) env r0 (t0 + k)) =
    slice (sr (run (quad_config dummy_cycles byte_order) env r0 t0))
      (32 - 2 * 4 * Z.of_nat k - 4) (32 - 2 * 4 * Z.of_nat k) /\
  dq2_o (quad_config dummy_cycles byte_order)
    (run (quad_config dummy_cycles byte_order) env r0 (t0 + k))
    (env (t0 + k)%nat) =
    slice (sr (run (quad_config dummy_cycles byte_order) env r0 t0))
      (32 - 2 * 4 * Z.of_nat k - 2 * 4) (32 - 2 * 4 * Z.of_nat k - 4).
Proof.
  intros Hs Hc0 Hk.
  set (cfg := quad_config dummy_cycles byte_order) in *.
  destruct (send_data_slices dummy_cycles byte_order env r0 t0 k
              (32 - 4) 32 Hs Hc0) as [Hsk H1]; try lia.
  destruct (send_data_slices dummy_cycles byte_order env r0 t0 k
              (32 - 4 * 2) (32 - 4) Hs Hc0) as [_ H2]; try lia.
  fold cfg in Hsk, H1, H2.
  split; [exact Hsk|].
  unfold dq2_o, dq1_o. rewrite gang_outputs_comb, Hsk.
  change (sr_width cfg) with 32. change (spi_width cfg) with 4.
  split.
  - rewrite H1. f_equal; lia.
  - rewrite H2. f_equal; lia.
Qed.

(** C7: bit [b] of [dq1.o], for each lane [b], is bit
    [sr_width - spi_width + b] of the shift register, in every state;
    [gang_outputs] is set exactly in [SEND_CMD] and [SEND_ADDR]; bit [b] of
    [dq2.o] is that same register bit when it is set and bit
    [sr_width - 2 * spi_width + b], the lane's bit in the group below,
    when it is not, as in [SEND_DATA]; neither output has a bit above its
    lanes.  So in cycle [k] of a data phase the first device is sent bits
    [sr_width - 2 * spi_width * k - spi_width + b] and the second bits
    [sr_width - 2 * spi_width * k - 2 * spi_width + b] of the word the
    phase started with: alternate groups of it, none of them twice. *)
Theorem gang_outputs_select
  (len1 len2 dummy_cycles : Z) (byte_order : string) (cfg : config)
  (env : nat -> inputs) (r0 : regs) (t0 : nat) :
  construct len1 len2 dummy_cycles byte_order = inr cfg ->
  (forall r i,
     0 <= dq1_o cfg r < 2 ^ spi_width cfg /\
     0 <= dq2_o cfg r i < 2 ^ spi_width cfg /\
     (forall b, 0 <= b < spi_width cfg ->
        Z.testbit (dq1_o cfg r) b =
        Z.testbit (sr r) (sr_width cfg - spi_width cfg + b)) /\
     (gang_outputs (comb cfg r i) = true <->
      state r = SEND_CMD \/ state r = SEND_ADDR) /\
     (gang_outputs (comb cfg r i) = true ->
      forall b, 0 <= b < spi_width cfg ->
        Z.testbit (dq2_o cfg r i) b =
        Z.testbit (sr r) (sr_width cfg - spi_width cfg + b)) /\
     (gang_outputs (comb cfg r i) = false ->
      forall b, 0 <= b < spi_width cfg ->
        Z.testbit (dq2_o cfg r i) b =
        Z.testbit (sr r) (sr_width cfg - 2 * spi_width cfg + b)) /\
     (dq_oe (comb cfg r i) = true <->
      state r = SEND_CMD \/ state r = SEND_ADDR \/ state r = SEND_DATA)) /\
  (state (run cfg env r0 t0) = SEND_DATA ->
   cycle_counter (run cfg env r0 t0) = 0 ->
   forall k, Z.of_nat k < data_cycles cfg ->
     gang_outputs (comb cfg (run cfg env r0 (t0 + k)) (env (t0 + k)%nat)) =
       false /\
     forall b, 0 <= b < spi_width cfg ->
       Z.testbit (dq1_o cfg (run cfg env r0 (t0 + k))) b =
         Z.testbit (sr (run cfg env r0 t0))
           (sr_width cfg - 2 * spi_width cfg * Z.of_nat k
            - spi_width cfg + b) /\
       Z.testbit (dq2_o cfg (run cfg env r0 (t0 + k)) (env (t0 + k)%nat)) b =
         Z.testbit (sr (run cfg env r0 t0))
           (sr_width cfg - 2 * spi_width cfg * Z.of_nat k
            - 2 * spi_width cfg + b)).
Proof.
  intros Hc.
  apply construct_inv in Hc. destruct Hc as (_ & _ & ->).
  set (cfg := quad_config dummy_cycles byte_order).
  assert (Hbit : forall v lo hi b, 0 <= lo -> hi - lo = 4 -> 0 <= b < 4 ->
            Z.testbit (slice v lo hi) b = Z.testbit v (lo + b)).
  { intros v lo hi b Hlo Hhi Hb. rewrite testbit_slice by lia.
    destruct (Z.ltb_spec b (hi - lo)); [|lia].
    simpl. f_equal. lia. }
  split.
  - intros r i.
    change (spi_width cfg) with 4. change (sr_width cfg) with 32.
    assert (H1 : 0 <= dq1_o cfg r < 2 ^ 4)
      by (unfold dq1_o, slice; apply trunc_range;
          change (sr_width cfg) with 32; change (spi_width cfg) with 4; lia).
    assert (H2 : 0 <= dq2_o cfg r i < 2 ^ 4)
      by (unfold dq2_o, slice;
          destruct (gang_outputs (comb cfg r i)); apply trunc_range;
          change (sr_width cfg) with 32; change (spi_width cfg) with 4; lia).
    split; [exact H1|]. split; [exact H2|].
    split; [|split; [|split; [|split]]].
    + intros b Hb. unfold dq1_o.
      change (sr_width cfg) with 32. change (spi_width cfg) with 4.
      now rewrite Hbit by lia.
    + rewrite gang_outputs_comb.
      destruct (state r); split; intros H; try reflexivity;
        try discriminate; try tauto;
        repeat match goal with
               | H : _ \/ _ |- _ => destruct H
               end; discriminate.
    + intros Hg b Hb. unfold dq2_o. rewrite Hg.
      change (sr_width cfg) with 32. change (spi_width cfg) with 4.
      now rewrite Hbit by lia.
    + intros Hg b Hb. unfold dq2_o. rewrite Hg.
      change (sr_width cfg) with 32. change (spi_width cfg) with 4.
      rewrite Hbit by lia. f_equal.
    + rewrite dq_oe_comb.
      destruct (state r); split; intros H; try reflexivity;
        try discriminate; try tauto;
        repeat match goal with
               | H : _ \/ _ |- _ => destruct H
               end; discriminate.
  - intros Hs Hc0 k Hk.
    change (data_cycles cfg) with 4 in Hk.
    change (sr_width cfg) with 32. change (spi_width cfg) with 4.
    destruct (send_data_outputs dummy_cycles byte_order env r0 t0 k
                Hs Hc0 Hk) as (Hsk & H1 & H2).
    fold cfg in Hsk, H1, H2.
    split; [now rewrite gang_outputs_comb, Hsk|].
    intros b Hb. rewrite H1, H2, !Hbit by lia.
    split; f_equal; lia.
Qed.

Lemma gang_outputs_select_witness :
  gang_outputs
    (comb (quad_config 5 "big")
       (run (quad_config 5 "big") (write_env 0 0x12345678) (reset_regs 0)
          (15 + 1))
       (write_env 0 0x12345678 (15 + 1)%nat)) = false /\
  forall b, 0 <= b < spi_width (quad_config 5 "big") ->
    Z.testbit
      (dq1_o (quad_config 5 "big")
         (run (quad_config 5 "big") (write_env 0 0x12345678) (reset_regs 0)
            (15 + 1))) b =
      Z.testbit
        (sr (run (quad_config 5 "big") (write_env 0 0x12345678)
               (reset_regs 0) 15))
        (sr_width (quad_config 5 "big") -
         2 * spi_width (quad_config 5 "big") * Z.of_nat 1 -
         spi_width (quad_config 5 "big") + b) /\
    Z.testbit
      (dq2_o (quad_config 5 "big")
         (run (quad_config 5 "big") (write_env 0 0x12345678) (reset_regs 0)
            (15 + 1))
         (write_env 0 0x12345678 (15 + 1)%nat)) b =
      Z.testbit
        (sr (run (quad_config 5 "big") (write_env 0 0x12345678)
               (reset_regs 0) 15))
        (sr_width (quad_config 5 "big") -
         2 * spi_width (quad_config 5 "big") * Z.of_nat 1 -
         2 * spi_width (quad_config 5 "big") + b).
Proof.
  destruct (gang_outputs_select 4 4 5 "big" (quad_config 5 "big")
              (write_env 0 0x12345678) (reset_regs 0) 15 eq_refl)
    as [_ H].
  apply (H ltac:(vm_compute; reflexivity) ltac:(vm_compute; reflexivity)
           1%nat).
  vm_compute. reflexivity.
Defined.

(** C9: a write that continues a burst enters [SEND_DATA] with the shift
    register as the previous transaction left it, [bus.dat_w] not being
    read, and what the data phase then sends to the two devices is cut
    from that residue; on the path through [SEND_ADDR], the register is
    loaded with [bus.dat_w] in the last cycle of the address phase. *)
Theorem continued_write_keeps_sr
  (len1 len2 dummy_cycles : Z) (byte_order : string) (cfg : config)
  (env : nat -> inputs) (c0 : Z) (t : nat) :
  construct len1 len2 dummy_cycles byte_order = inr cfg ->
  (forall r i,
     state r = WAIT_SEND_MORE -> pending i = true ->
     bus_we i = true -> bus_adr i = next_addr r ->
     state (tick cfg r i) = SEND_DATA /\ sr (tick cfg r i) = sr r) /\
  (forall r i,
     state r = SEND_ADDR -> cycle_counter r = address_cycles cfg - 1 ->
     is_write r = true ->
     state (tick cfg r i) = SEND_DATA /\
     sr (tick cfg r i) = trunc (sr_width cfg) (bus_dat_w i)) /\
  (state (run cfg env (reset_regs c0) t) = WAIT_SEND_MORE ->
   pending (env t) = true -> bus_we (env t) = true ->
   bus_adr (env t) = next_addr (run cfg env (reset_regs c0) t) ->
   forall k, Z.of_nat k < data_cycles cfg ->
     state (run cfg env (reset_regs c0) (S t + k)) = SEND_DATA /\
     dq1_o cfg (run cfg env (reset_regs c0) (S t + k)) =
       slice (sr (run cfg env (reset_regs c0) t))
         (sr_width cfg - 2 * spi_width cfg * Z.of_nat k - spi_width cfg)
         (sr_width cfg - 2 * spi_width cfg * Z.of_nat k) /\
     dq2_o cfg (run cfg env (reset_regs c0) (S t + k)) (env (S t + k)%nat) =
       slice (sr (run cfg env (reset_regs c0) t))
         (sr_width cfg - 2 * spi_width cfg * Z.of_nat k - 2 * spi_width cfg)
         (sr_width cfg - 2 * spi_width cfg * Z.of_nat k - spi_width cfg)).
Proof.
  intros Hc.
  assert (Hwait : forall r i,
            state r = WAIT_SEND_MORE -> pending i = true ->
            bus_we i = true -> bus_adr i = next_addr r ->
            tick cfg r i =
            Regs SEND_DATA (cycle_counter r) (is_write r)
              (trunc 32 (bus_adr i + 1)) (sr r)).
  { intros r i Hs Hp Hw Ha.
    now rewrite tick_WAIT_SEND_MORE, Hp, Hw, Ha, Z.eqb_refl by assumption. }
  split; [|split].
  - intros r i Hs Hp Hw Ha. now rewrite Hwait by assumption.
  - intros r i Hs Hcnt Hw.
    rewrite tick_SEND_ADDR by assumption.
    unfold address_cycles in Hcnt. rewrite Hcnt, Z.eqb_refl, Hw.
    split; reflexivity.
  - intros Hs Hp Hw Ha k Hk.
    pose proof (steady_run cfg env c0 t) as Hst.
    unfold steady in Hst. rewrite Hs in Hst.
    assert (Hnext : run cfg env (reset_regs c0) (S t) =
                    Regs SEND_DATA 0
                      (is_write (run cfg env (reset_regs c0) t))
                      (trunc 32 (bus_adr (env t) + 1))
                      (sr (run cfg env (reset_regs c0) t))).
    { rewrite run_S, Hwait by assumption. now rewrite Hst. }
    apply construct_inv in Hc. destruct Hc as (_ & _ & ->).
    change (data_cycles (quad_config dummy_cycles byte_order)) with 4 in Hk.
    destruct (send_data_outputs dummy_cycles byte_order env (reset_regs c0)
                (S t) k ltac:(now rewrite Hnext) ltac:(now rewrite Hnext) Hk)
      as (Hsk & H1 & H2).
    rewrite Hnext in H1, H2. cbn [sr] in H1, H2.
    split; [exact Hsk|]. split; assumption.
Qed.

Lemma continued_write_keeps_sr_witness :
  state (run (quad_config 5 "big") write_write_env (reset_regs 0)
           (S 19 + 0)) = SEND_DATA /\
  dq1_o (quad_config 5 "big")
    (run (quad_config 5 "big") write_write_env (reset_regs 0) (S 19 + 0)) =
    slice (sr (run (quad_config 5 "big") write_write_env (reset_regs 0) 19))
      (sr_width (quad_config 5 "big") -
       2 * spi_width (quad_config 5 "big") * Z.of_nat 0 -
       spi_width (quad_config 5 "big"))
      (sr_width (quad_config 5 "big") -
       2 * spi_width (quad_config 5 "big") * Z.of_nat 0) /\
  dq2_o (quad_config 5 "big")
    (run (quad_config 5 "big") write_write_env (reset_regs 0) (S 19 + 0))
    (write_write_env (S 19 + 0)%nat) =
    slice (sr (run (quad_config 5 "big") write_write_env (reset_regs 0) 19))
      (sr_width (quad_config 5 "big") -
       2 * spi_width (quad_config 5 "big") * Z.of_nat 0 -
       2 * spi_width (quad_config 5 "big"))
      (sr_width (quad_config 5 "big") -
       2 * spi_width (quad_config 5 "big") * Z.of_nat 0 -
       spi_width (quad_config 5 "big")).
Proof.
  destruct (continued_write_keeps_sr 4 4 5 "big" (quad_config 5 "big")
              write_write_env 0 19 eq_refl)
    as (_ & _ & H).
  apply (H ltac:(vm_compute; reflexivity) ltac:(vm_compute; reflexivity)
           ltac:(vm_compute; reflexivity) ltac:(vm_compute; reflexivity)
           0%nat).
  vm_compute. reflexivity.
Defined.

(** * Further properties of the code *)

(** ** The command formatter on arbitrary opcodes and lane counts *)

(** Only the low 8 bits of [cmd] are looked at. *)
Theorem format_cmd_low_byte (cmd w : Z) :
  0 < w -> _format_cmd cmd w = _format_cmd (cmd mod 2 ^ 8) w.
Proof.
  intros Hw. apply Z.bits_inj'. intros i Hi.
  rewrite !format_cmd_bit by assumption.
  destruct (Z.ltb_spec i (8 * w)) as [Hlt|]; [|reflexivity].
  simpl. f_equal.
  assert (Hq : 0 <= i / w < 8)
    by (split; [apply Z.div_pos|apply Z.div_lt_upper_bound]; lia).
  now rewrite Z.mod_pow2_bits_low by lia.
Qed.

Lemma format_cmd_low_byte_witness :
  _format_cmd 0x1eb 4 = _format_cmd (0x1eb mod 2 ^ 8) 4.
Proof. apply (format_cmd_low_byte 0x1eb 4). lia. Defined.

(** Distinct 8-bit opcodes get distinct command words, on any number of
    lanes: the opcode can be read back from the lane-0 slots. *)
Theorem format_cmd_injective (o1 o2 w : Z) :
  0 < w -> 0 <= o1 < 2 ^ 8 -> 0 <= o2 < 2 ^ 8 ->
  _format_cmd o1 w = _format_cmd o2 w -> o1 = o2.
Proof.
  intros Hw H1 H2 He.
  rewrite <- (Z.mod_small o1 (2 ^ 8)), <- (Z.mod_small o2 (2 ^ 8))
    by assumption.
  apply Z.bits_inj'. intros b Hb.
  destruct (Z.ltb_spec b 8) as [Hlt|Hge].
  - rewrite !Z.mod_pow2_bits_low by lia.
    pose proof (format_cmd_bit o1 w Hw (b * w) ltac:(nia)) as B1.
    pose proof (format_cmd_bit o2 w Hw (b * w) ltac:(nia)) as B2.
    rewrite Z.mod_mul, Z.div_mul in B1, B2 by lia.
    destruct (Z.ltb_spec (b * w) (8 * w)); [|nia].
    simpl in B1, B2. rewrite <- B1, <- B2. now rewrite He.
  - now rewrite !Z.mod_pow2_bits_high by lia.
Qed.

Lemma format_cmd_injective_witness : 0xeb = 0xeb.
Proof.
  apply (format_cmd_injective 0xeb 0xeb 4); (lia || reflexivity).
Defined.

(** ** Every outcome of the construction *)

(** An assertion fails below two lanes and on a mismatch; every other lane
    count than 4, two included, is a missing key of one of the two
    command tables; 4 lanes build the quad sequencer. *)
Theorem construct_outcome (len1 len2 dummy_cycles : Z) (byte_order : string) :
  construct len1 len2 dummy_cycles byte_order =
  if (len1 <? 2) || negb (len1 =? len2) then inl AssertionError
  else if len1 =? 4 then inr (quad_config dummy_cycles byte_order)
  else inl KeyError.
Proof.
  unfold construct.
  rewrite read_cmd_params_lookup, write_cmd_params_lookup.
  destruct (Z.leb_spec 2 len1), (Z.ltb_spec len1 2); try lia;
    simpl; [|reflexivity].
  destruct (Z.eqb_spec len1 len2); simpl; [|reflexivity].
  destruct (Z.eqb_spec len1 4) as [->|]; [reflexivity|].
  destruct (Z.eqb_spec len1 2) as [->|]; [reflexivity|].
  destruct (Z.eqb_spec len1 1) as [->|]; [lia|reflexivity].
Qed.

(** ** Waiting, acknowledging, driving *)

(** A session stays open for as long as no request comes: in a waiting
    state the registers do not change, and chip select stays low with the
    clock stopped and the outputs off. *)
Theorem wait_holds_session
  (cfg : config) (env : nat -> inputs) (r : regs) (n : nat) :
  state r = WAIT_SEND_MORE \/ state r = WAIT_RECV_MORE ->
  (forall t, (t < n)%nat -> pending (env t) = false) ->
  run cfg env r n = r /\
  forall i, cs_n (comb cfg r i) = false /\
            clk (comb cfg r i) = false /\
            dq_oe (comb cfg r i) = false /\
            bus_ack (comb cfg r i) = false.
Proof.
  intros Hs Hno. split.
  - induction n as [|n IH]; [reflexivity|].
    rewrite run_S, IH by (intros t Ht; apply Hno; lia).
    destruct Hs as [Hs|Hs].
    + now rewrite tick_WAIT_SEND_MORE, Hno by (assumption || lia).
    + now rewrite tick_WAIT_RECV_MORE, Hno by (assumption || lia).
  - intros i.
    rewrite cs_n_comb, clk_comb, dq_oe_comb, bus_ack_comb.
    destruct Hs as [-> | ->]; auto.
Qed.

Lemma wait_holds_session_witness :
  run (quad_config 5 "big") (fun _ => no_request)
    (Regs WAIT_RECV_MORE 0 false 1 0) 7 = Regs WAIT_RECV_MORE 0 false 1 0 /\
  forall i, cs_n (comb (quad_config 5 "big")
                    (Regs WAIT_RECV_MORE 0 false 1 0) i) = false /\
            clk (comb (quad_config 5 "big")
                   (Regs WAIT_RECV_MORE 0 false 1 0) i) = false /\
            dq_oe (comb (quad_config 5 "big")
                     (Regs WAIT_RECV_MORE 0 false 1 0) i) = false /\
            bus_ack (comb (quad_config 5 "big")
                       (Regs WAIT_RECV_MORE 0 false 1 0) i) = false.
Proof.
  apply (wait_holds_session (quad_config 5 "big") (fun _ => no_request)
           (Regs WAIT_RECV_MORE 0 false 1 0) 7).
  - right. reflexivity.
  - intros t _. reflexivity.
Defined.

(** Without a request the sequencer stays in [IDLE], chip select high. *)
Theorem idle_waits
  (cfg : config) (env : nat -> inputs) (r : regs) (n : nat) :
  state r = IDLE ->
  (forall t, (t < n)%nat -> pending (env t) = false) ->
  state (run cfg env r n) = IDLE /\
  forall i, cs_n (comb cfg (run cfg env r n) i) = true.
Proof.
  intros Hs Hno.
  assert (H : state (run cfg env r n) = IDLE).
  { induction n as [|n IH]; [assumption|].
    rewrite run_S, tick_IDLE, Hno by (try apply IH; intros; try apply Hno; lia).
    reflexivity. }
  split; [exact H|]. intros i. now rewrite cs_n_comb, H.
Qed.

Lemma idle_waits_witness :
  state (run (quad_config 5 "big") (fun _ => no_request) (reset_regs 3) 9) =
    IDLE /\
  forall i, cs_n (comb (quad_config 5 "big")
                    (run (quad_config 5 "big") (fun _ => no_request)
                       (reset_regs 3) 9) i) = true.
Proof.
  apply (idle_waits (quad_config 5 "big") (fun _ => no_request)
           (reset_regs 3) 9).
  - reflexivity.
  - intros t _. reflexivity.
Defined.

(** The acknowledgment is a pulse of one cycle, given in the last cycle of
    a data phase: the cycle after it the FSM is in the waiting state of
    the direction just served and the acknowledgment is off. *)
Theorem ack_is_one_cycle (cfg : config) (r : regs) (i i' : inputs) :
  bus_ack (comb cfg r i) = true ->
  (state r = SEND_DATA /\ state (tick cfg r i) = WAIT_SEND_MORE \/
   state r = RECV_DATA /\ state (tick cfg r i) = WAIT_RECV_MORE) /\
  cycle_counter (tick cfg r i) = 0 /\
  bus_ack (comb cfg (tick cfg r i) i') = false.
Proof.
  rewrite !bus_ack_comb. intros Hack.
  destruct (state r) eqn:Hs; try discriminate.
  - rewrite tick_SEND_DATA, Hack by assumption. simpl. auto.
  - rewrite tick_RECV_DATA, Hack by assumption. simpl. auto.
Qed.

Lemma ack_is_one_cycle_witness :
  (state (Regs SEND_DATA 3 true 1 0) = SEND_DATA /\
   state (tick (quad_config 5 "big") (Regs SEND_DATA 3 true 1 0)
            no_request) = WAIT_SEND_MORE \/
   state (Regs SEND_DATA 3 true 1 0) = RECV_DATA /\
   state (tick (quad_config 5 "big") (Regs SEND_DATA 3 true 1 0)
            no_request) = WAIT_RECV_MORE) /\
  cycle_counter (tick (quad_config 5 "big") (Regs SEND_DATA 3 true 1 0)
                   no_request) = 0 /\
  bus_ack (comb (quad_config 5 "big")
             (tick (quad_config 5 "big") (Regs SEND_DATA 3 true 1 0)
                no_request) no_request) = false.
Proof.
  apply (ack_is_one_cycle (quad_config 5 "big") (Regs SEND_DATA 3 true 1 0)
           no_request no_request).
  reflexivity.
Defined.

(** Which states drive what: chip select is high in [IDLE] only; the
    clock runs in the five phases and is stopped in [IDLE] and while
    waiting; the data lines are driven in the three sending phases and
    never while receiving or waiting. *)
Theorem pad_signals (cfg : config) (r : regs) (i : inputs) :
  (cs_n (comb cfg r i) = true <-> state r = IDLE) /\
  (clk (comb cfg r i) = false <->
   state r = IDLE \/ state r = WAIT_SEND_MORE \/ state r = WAIT_RECV_MORE) /\
  (dq_oe (comb cfg r i) = false <->
   state r = IDLE \/ state r = RECV_DATA_DUMMY \/ state r = RECV_DATA \/
   state r = WAIT_SEND_MORE \/ state r = WAIT_RECV_MORE).
Proof.
  rewrite cs_n_comb, clk_comb, dq_oe_comb.
  destruct (state r); repeat split; intros; try reflexivity;
    try discriminate; try tauto;
    repeat match goal with
           | H : _ \/ _ |- _ => destruct H
           end; discriminate.
Qed.

(** ** What the shift register carries through a phase *)

Section SlicesThrough.

Variable cfg : config.
Variable P : fsm_state.
Variable inside : regs -> Prop.
Variable j : Z.

Hypothesis j_nonneg : 0 <= j.
Hypothesis moves : forall r i lo hi,
  state r = P -> inside r -> j <= lo -> lo <= hi <= 32 ->
  slice (sr (tick cfg r i)) lo hi = slice (sr r) (lo - j) (hi - j).

Variable env : nat -> inputs.
Variable r0 : regs.
Variable a : nat.

Lemma slices_through (n : nat) :
  (forall k, (k < n)%nat ->
     state (run cfg env r0 (a + k)) = P /\ inside (run cfg env r0 (a + k))) ->
  forall lo hi, j * Z.of_nat n <= lo -> lo <= hi <= 32 ->
  slice (sr (run cfg env r0 (a + n))) lo hi =
  slice (sr (run cfg env r0 a)) (lo - j * Z.of_nat n) (hi - j * Z.of_nat n).
Proof.
  induction n as [|n IH]; intros Hin lo hi Hlo Hhi.
  - rewrite Nat.add_0_r. f_equal; lia.
  - destruct (Hin n ltac:(lia)) as [Hs Hi].
    rewrite Nat.add_succ_r, run_S, moves by (assumption || nia).
    rewrite IH by (try (intros k Hk; apply Hin); nia).
    f_equal; lia.
Qed.

End SlicesThrough.

Section QuadCounters.

Variable dummy_cycles : Z.
Variable byte_order : string.
Variable env : nat -> inputs.
Variable r0 : regs.
Variable t0 : nat.

Let cfg : config := quad_config dummy_cycles byte_order.

Lemma send_cmd_counter (k : nat) :
  state (run cfg env r0 t0) = SEND_CMD ->
  cycle_counter (run cfg env r0 t0) = 0 ->
  Z.of_nat k <= 7 ->
  state (run cfg env r0 (t0 + k)) = SEND_CMD /\
  cycle_counter (run cfg env r0 (t0 + k)) = Z.of_nat k.
Proof.
  intros Hs Hc Hk.
  destruct (counting cfg SEND_CMD 7 (fun _ _ => True))
    with (env := env) (r0 := r0) (t0 := t0) (k := k) as (H1 & H2 & _);
    auto; [simpl; lia|].
  intros r i Hr Hne. rewrite tick_SEND_CMD by assumption.
  change (cmd_width cfg / spi_width cfg - 1) with 7.
  destruct (Z.eqb_spec (cycle_counter r) 7); [lia|now simpl].
Qed.


Lemma recv_data_counter (k : nat) :
  state (run cfg env r0 t0) = RECV_DATA ->
  cycle_counter (run cfg env r0 t0) = 0 ->
  Z.of_nat k <= 4 ->
  state (run cfg env r0 (t0 + k)) = RECV_DATA /\
  cycle_counter (run cfg env r0 (t0 + k)) = Z.of_nat k.
Proof.
  intros Hs Hc Hk.
  destruct (counting cfg RECV_DATA 4 (fun _ _ => True))
    with (env := env) (r0 := r0) (t0 := t0) (k := k) as (H1 & H2 & _);
    auto; [simpl; lia|].
  intros r i Hr Hne. rewrite tick_RECV_DATA by assumption.
  change (wbone_width cfg / spi_width cfg / 2) with 4.
  destruct (Z.eqb_spec (cycle_counter r) 4); [lia|now simpl].
Qed.

(** In the two ganged phases the register moves up by 4 bits a cycle. *)
Lemma send_cmd_slices (k : nat) (lo hi : Z) :
  state (run cfg env r0 t0) = SEND_CMD ->
  cycle_counter (run cfg env r0 t0) = 0 ->
  Z.of_nat k <= 7 -> 4 * Z.of_nat k <= lo -> lo <= hi <= 32 ->
  slice (sr (run cfg env r0 (t0 + k))) lo hi =
  slice (sr (run cfg env r0 t0)) (lo - 4 * Z.of_nat k) (hi - 4 * Z.of_nat k).
Proof.
  intros Hs Hc Hk Hlo Hhi.
  apply (slices_through cfg SEND_CMD (fun r => cycle_counter r <> 7) 4);
    try assumption; [lia| |].
  - intros r i lo' hi' Hr Hne Hlo' Hhi'.
    rewrite tick_SEND_CMD by assumption.
    change (cmd_width cfg / spi_width cfg - 1) with 7.
    destruct (Z.eqb_spec (cycle_counter r) 7); [lia|]. cbn [sr].
    change (cmd_width cfg - wbone_width cfg + spi_width cfg) with 4.
    rewrite shifted_moves_up by (simpl; lia).
    change (sr_width cfg) with 32.
    now rewrite slice_moved_up by lia.
  - intros m Hm.
    destruct (send_cmd_counter m Hs Hc ltac:(lia)) as [H1 H2].
    split; [assumption|]. rewrite H2. lia.
Qed.


End QuadCounters.

(** ** What goes out on the wires *)

(** In cycle [k] of the command phase both devices are sent the same four
    bits: bit [7 - k] of the opcode on lane 0, ones on lanes 1 to 3.  The
    opcode is the quad write 0x38 or the quad fast read 0xEB, by [bus.we]
    in the cycle the request was accepted. *)
Theorem command_on_the_wire
  (dummy_cycles : Z) (byte_order : string) (env : nat -> inputs) (r0 : regs)
  (k : nat) :
  state r0 = IDLE ->
  pending (env 0%nat) = true ->
  (k < 8)%nat ->
  dq_oe (comb (quad_config dummy_cycles byte_order)
           (run (quad_config dummy_cycles byte_order) env r0 (1 + k))
           (env (1 + k)%nat)) = true /\
  dq1_o (quad_config dummy_cycles byte_order)
    (run (quad_config dummy_cycles byte_order) env r0 (1 + k)) =
    Z.lor 0xe
      (Z.b2z (Z.testbit (if bus_we (env 0%nat) then _QIOW else _QIOFR)
                (7 - Z.of_nat k))) /\
  dq2_o (quad_config dummy_cycles byte_order)
    (run (quad_config dummy_cycles byte_order) env r0 (1 + k))
    (env (1 + k)%nat) =
  dq1_o (quad_config dummy_cycles byte_order)
    (run (quad_config dummy_cycles byte_order) env r0 (1 + k)).
Proof.
  intros Hidle Hp Hk.
  set (cfg := quad_config dummy_cycles byte_order).
  destruct (idle_accepts dummy_cycles byte_order env r0 Hidle Hp)
    as [Hs1 Hc1].
  fold cfg in Hs1, Hc1.
  assert (Hsr : sr (run cfg env r0 1) =
                if bus_we (env 0%nat) then 0xeefffeee else 0xfffefeff).
  { rewrite run_S. simpl run. rewrite tick_IDLE, Hp by assumption.
    now destruct (bus_we (env 0%nat)). }
  destruct (send_cmd_counter dummy_cycles byte_order env r0 1 k Hs1 Hc1)
    as [Hsk _]; [lia|].
  fold cfg in Hsk.
  pose proof (send_cmd_slices dummy_cycles byte_order env r0 1 k
                (32 - 4) 32 Hs1 Hc1) as Hsl.
  fold cfg in Hsl. rewrite Hsr in Hsl.
  unfold dq2_o, dq1_o. rewrite dq_oe_comb, gang_outputs_comb, Hsk.
  change (sr_width cfg) with 32. change (spi_width cfg) with 4.
  split; [reflexivity|]. split; [|reflexivity].
  rewrite Hsl by lia.
  destruct (bus_we (env 0%nat));
    do 8 (destruct k as [|k]; [vm_compute; reflexivity|]); lia.
Qed.

Lemma command_on_the_wire_witness :
  dq_oe (comb (quad_config 5 "big")
           (run (quad_config 5 "big") (read_env 0) (reset_regs 0) (1 + 2))
           (read_env 0 (1 + 2)%nat)) = true /\
  dq1_o (quad_config 5 "big")
    (run (quad_config 5 "big") (read_env 0) (reset_regs 0) (1 + 2)) =
    Z.lor 0xe
      (Z.b2z (Z.testbit (if bus_we (read_env 0 0%nat) then _QIOW else _QIOFR)
                (7 - Z.of_nat 2))) /\
  dq2_o (quad_config 5 "big")
    (run (quad_config 5 "big") (read_env 0) (reset_regs 0) (1 + 2))
    (read_env 0 (1 + 2)%nat) =
  dq1_o (quad_config 5 "big")
    (run (quad_config 5 "big") (read_env 0) (reset_regs 0) (1 + 2)).
Proof.
  apply (command_on_the_wire 5 "big" (read_env 0) (reset_regs 0) 2).
  - reflexivity.
  - reflexivity.
  - lia.
Defined.



(** ** The receive path *)

Lemma testbit_captured
  (dummy_cycles : Z) (byte_order : string) (r : regs) (i : inputs) (b : Z) :
  0 <= b ->
  Z.testbit (captured (quad_config dummy_cycles byte_order) r i) b =
  (b <? 32) &&
  (if b <? 4 then Z.testbit (dq1_i i) b
   else if b <? 8 then Z.testbit (dq2_i i) (b - 4)
   else Z.testbit (sr r) (b - 8)).
Proof.
  intros Hb. unfold captured, Cat.
  change (sr_width (quad_config dummy_cycles byte_order)) with 32.
  change (spi_width (quad_config dummy_cycles byte_order)) with 4.
  change (32 - 4 * 2) with 24.
  rewrite testbit_trunc by lia.
  destruct (Z.ltb_spec b 32) as [H32|]; [|reflexivity]. simpl andb.
  rewrite Z.lor_spec, testbit_trunc by lia.
  destruct (Z.ltb_spec b 4) as [H4|H4].
  - rewrite Z.shiftl_spec, (Z.testbit_neg_r _ (b - 4)) by lia.
    now rewrite orb_false_r.
  - simpl. rewrite Z.shiftl_spec, Z.lor_spec, testbit_trunc by lia.
    destruct (Z.ltb_spec b 8) as [H8|H8].
    + destruct (Z.ltb_spec (b - 4) 4); [|lia].
      rewrite Z.shiftl_spec, (Z.testbit_neg_r _ (b - 4 - 4)) by lia.
      now rewrite orb_false_r.
    + destruct (Z.ltb_spec (b - 4) 4); [lia|]. simpl.
      rewrite Z.shiftl_spec, Z.lor_spec, Z.shiftl_0_l, Z.testbit_0_l by lia.
      rewrite orb_false_r, testbit_trunc, testbit_slice by lia.
      destruct (Z.ltb_spec (b - 4 - 4) 24); [|lia].
      destruct (Z.ltb_spec (b - 4 - 4) (24 - 0)); [|lia].
      simpl. f_equal. lia.
Qed.

Lemma captured_low
  (dummy_cycles : Z) (byte_order : string) (r : regs) (i : inputs) :
  slice (captured (quad_config dummy_cycles byte_order) r i) 0 4 =
    trunc 4 (dq1_i i) /\
  slice (captured (quad_config dummy_cycles byte_order) r i) 4 8 =
    trunc 4 (dq2_i i).
Proof.
  split; apply Z.bits_inj'; intros b Hb;
    rewrite testbit_slice, testbit_trunc, testbit_captured by lia;
    repeat match goal with
           | |- context [?x <? ?y] => destruct (Z.ltb_spec x y)
           end;
    try lia; simpl; try reflexivity; f_equal; lia.
Qed.

Lemma captured_moves_up
  (dummy_cycles : Z) (byte_order : string) (r : regs) (i : inputs)
  (lo hi : Z) :
  8 <= lo -> lo <= hi <= 32 ->
  slice (captured (quad_config dummy_cycles byte_order) r i) lo hi =
  slice (sr r) (lo - 8) (hi - 8).
Proof.
  intros Hlo Hhi. apply Z.bits_inj'. intros b Hb.
  rewrite !testbit_slice, testbit_captured by lia.
  replace (hi - 8 - (lo - 8)) with (hi - lo) by lia.
  destruct (Z.ltb_spec b (hi - lo)); [|reflexivity].
  destruct (Z.ltb_spec (b + lo) 32), (Z.ltb_spec (b + lo) 4),
    (Z.ltb_spec (b + lo) 8); try lia.
  simpl. f_equal. lia.
Qed.

(** With the big-endian default, the word on [bus.dat_r] in the cycle of
    the acknowledgment is made of the inputs of the first four cycles of
    [RECV_DATA], the first cycle in the top byte: in each byte, the low
    four bits are [dq1.i] and the high four bits [dq2.i] of its cycle.
    The inputs of the acknowledgment cycle itself are not part of it. *)
Theorem read_data_on_ack
  (dummy_cycles : Z) (env : nat -> inputs) (r0 : regs) (t0 k : nat) :
  state (run (quad_config dummy_cycles "big") env r0 t0) = RECV_DATA ->
  cycle_counter (run (quad_config dummy_cycles "big") env r0 t0) = 0 ->
  (k < 4)%nat ->
  ack_at (quad_config dummy_cycles "big") env r0 (t0 + 4) = true /\
  slice (bus_dat_r (quad_config dummy_cycles "big")
           (run (quad_config dummy_cycles "big") env r0 (t0 + 4)))
    (8 * (3 - Z.of_nat k)) (8 * (3 - Z.of_nat k) + 4) =
    trunc 4 (dq1_i (env (t0 + k)%nat)) /\
  slice (bus_dat_r (quad_config dummy_cycles "big")
           (run (quad_config dummy_cycles "big") env r0 (t0 + 4)))
    (8 * (3 - Z.of_nat k) + 4) (8 * (3 - Z.of_nat k) + 8) =
    trunc 4 (dq2_i (env (t0 + k)%nat)).
Proof.
  intros Hs Hc Hk.
  set (cfg := quad_config dummy_cycles "big") in *.
  assert (Hst : forall m, (m <= 4)%nat ->
            state (run cfg env r0 (t0 + m)) = RECV_DATA /\
            cycle_counter (run cfg env r0 (t0 + m)) = Z.of_nat m).
  { intros m Hm.
    apply (recv_data_counter dummy_cycles "big" env r0 t0 m Hs Hc). lia. }
  split.
  - unfold ack_at. rewrite bus_ack_comb.
    destruct (Hst 4%nat ltac:(lia)) as [-> ->]. reflexivity.
  - change (bus_dat_r cfg (run cfg env r0 (t0 + 4)))
      with (sr (run cfg env r0 (t0 + 4))).
    assert (Hmove : forall lo hi,
              8 * Z.of_nat (3 - k) <= lo -> lo <= hi <= 32 ->
              slice (sr (run cfg env r0 (t0 + S k + (3 - k)))) lo hi =
              slice (sr (run cfg env r0 (t0 + S k)))
                (lo - 8 * Z.of_nat (3 - k)) (hi - 8 * Z.of_nat (3 - k))).
    { apply (slices_through cfg RECV_DATA (fun _ => True) 8); [lia| |].
      - intros r i lo hi Hr _ Hlo Hhi.
        rewrite tick_RECV_DATA by assumption. cbn [sr].
        now apply captured_moves_up.
      - intros m Hm. split; [|exact I].
        replace (t0 + S k + m)%nat with (t0 + (S k + m))%nat by lia.
        apply Hst. lia. }
    replace (t0 + S k + (3 - k))%nat with (t0 + 4)%nat in Hmove by lia.
    assert (Hcap : sr (run cfg env r0 (t0 + S k)) =
                   captured cfg (run cfg env r0 (t0 + k))
                     (env (t0 + k)%nat)).
    { rewrite Nat.add_succ_r, run_S, tick_RECV_DATA by (apply Hst; lia).
      reflexivity. }
    rewrite Hcap in Hmove.
    destruct (captured_low dummy_cycles "big" (run cfg env r0 (t0 + k))
                (env (t0 + k)%nat)) as [L1 L2].
    fold cfg in L1, L2.
    split.
    + rewrite Hmove by lia. rewrite <- L1. f_equal; lia.
    + rewrite Hmove by lia. rewrite <- L2. f_equal; lia.
Qed.

Lemma read_data_on_ack_witness :
  ack_at (quad_config 5 "big") capture_env (reset_regs 0) (21 + 4) = true /\
  slice (bus_dat_r (quad_config 5 "big")
           (run (quad_config 5 "big") capture_env (reset_regs 0) (21 + 4)))
    (8 * (3 - Z.of_nat 2)) (8 * (3 - Z.of_nat 2) + 4) =
    trunc 4 (dq1_i (capture_env (21 + 2)%nat)) /\
  slice (bus_dat_r (quad_config 5 "big")
           (run (quad_config 5 "big") capture_env (reset_regs 0) (21 + 4)))
    (8 * (3 - Z.of_nat 2) + 4) (8 * (3 - Z.of_nat 2) + 8) =
    trunc 4 (dq2_i (capture_env (21 + 2)%nat)).
Proof.
  apply (read_data_on_ack 5 capture_env (reset_regs 0) 21 2).
  - vm_compute. reflexivity.
  - vm_compute. reflexivity.
  - lia.
Defined.

(** ** What a continued write sends *)

Lemma shifted_8_drains (dummy_cycles : Z) (byte_order : string) (r : regs)
  (c : Z) :
  0 <= c <= 3 ->
  sr r mod 2 ^ (8 * c) = 0 ->
  shifted (quad_config dummy_cycles byte_order) 8 r mod 2 ^ (8 * (c + 1)) = 0
  /\ (c = 3 -> shifted (quad_config dummy_cycles byte_order) 8 r = 0).
Proof.
  intros Hc Hm.
  rewrite shifted_moves_up by (simpl; lia).
  change (sr_width (quad_config dummy_cycles byte_order)) with 32.
  unfold trunc.
  apply Z.mod_divide in Hm; [|apply Z.pow_nonzero; lia].
  destruct Hm as [q Hq].
  assert (Hx : sr r * 2 ^ 8 = q * 2 ^ (8 * (c + 1))).
  { rewrite Hq, <- Z.mul_assoc, <- Z.pow_add_r by lia.
    do 2 f_equal. lia. }
  split.
  - rewrite Z.mod_mod_divide.
    + rewrite Hx. apply Z.mod_mul. apply Z.pow_nonzero; lia.
    + exists (2 ^ (32 - 8 * (c + 1))).
      rewrite <- Z.pow_add_r by lia. f_equal. lia.
  - intros ->. rewrite Hx. apply Z.mod_mul. discriminate.
Qed.

Lemma drained_tick (dummy_cycles : Z) (byte_order : string)
  (r : regs) (i : inputs) :
  drained r -> drained (tick (quad_config dummy_cycles byte_order) r i).
Proof.
  set (cfg := quad_config dummy_cycles byte_order).
  assert (Ht : forall v, 0 <= trunc (sr_width cfg) v < 2 ^ 32)
    by (intros v; apply (trunc_range 32); lia).
  unfold drained. intros [Hr H].
  destruct (state r) eqn:E.
  - rewrite tick_IDLE by assumption.
    destruct (pending i); cbn [sr state]; auto.
  - rewrite tick_SEND_CMD by assumption.
    destruct (cycle_counter r =? _); cbn [sr state]; split; auto;
      apply Ht.
  - rewrite tick_SEND_ADDR by assumption.
    destruct (cycle_counter r =? _), (is_write r);
      cbn [sr state cycle_counter]; split; auto; try apply Ht.
    split; [lia|]. apply Z.mod_1_r.
  - rewrite tick_SEND_DATA by assumption.
    change (wbone_width cfg / spi_width cfg / 2 - 1) with 3.
    change (cmd_width cfg - wbone_width cfg + spi_width cfg * 2) with 8.
    destruct H as [Hc Hm].
    destruct (shifted_8_drains dummy_cycles byte_order r (cycle_counter r)
                Hc Hm) as [Hd Hz].
    fold cfg in Hd, Hz.
    destruct (Z.eqb_spec (cycle_counter r) 3) as [E3|E3];
      cbn [sr state cycle_counter]; (split; [apply Ht|]).
    + split; [reflexivity|]. now apply Hz.
    + rewrite trunc_small by (simpl; lia). split; [lia|exact Hd].
  - rewrite tick_RECV_DATA_DUMMY by assumption.
    destruct (cycle_counter r =? _); cbn [sr state]; auto.
  - rewrite tick_RECV_DATA by assumption.
    destruct (cycle_counter r =? _); cbn [sr state cycle_counter];
      split; auto; apply Ht.
  - rewrite tick_WAIT_SEND_MORE by assumption.
    destruct H as [Hc Hz].
    destruct (pending i); [|now rewrite E].
    destruct ((bus_adr i =? next_addr r) && bus_we i);
      cbn [sr state cycle_counter]; split; auto.
    rewrite Hc, Hz. split; [lia|reflexivity].
  - rewrite tick_WAIT_RECV_MORE by assumption.
    destruct (pending i); [|now rewrite E].
    destruct ((bus_adr i =? next_addr r) && negb (bus_we i));
      cbn [sr state cycle_counter]; split; auto.
Qed.

Lemma drained_run (dummy_cycles : Z) (byte_order : string)
  (env : nat -> inputs) (c0 : Z) (t : nat) :
  drained (run (quad_config dummy_cycles byte_order) env (reset_regs c0) t).
Proof.
  induction t as [|t IH].
  - unfold drained. simpl. lia.
  - rewrite run_S. now apply drained_tick.
Qed.

Lemma slice_0 (lo hi : Z) : slice 0 lo hi = 0.
Proof. unfold slice, trunc. rewrite Z.shiftr_0_l. apply Zmod_0_l. Qed.

(** After reset, the shift register is empty whenever the FSM waits after
    a write: the four data cycles have moved the whole word out.  A write
    that continues the burst does not reload it, so in each of its four
    data cycles both devices are driven with zeros, whatever [bus.dat_w]
    holds. *)
Theorem continued_write_sends_zeros
  (dummy_cycles : Z) (byte_order : string) (env : nat -> inputs) (c0 : Z)
  (t k : nat) :
  state (run (quad_config dummy_cycles byte_order) env (reset_regs c0) t) =
    WAIT_SEND_MORE ->
  pending (env t) = true ->
  bus_we (env t) = true ->
  bus_adr (env t) =
    next_addr (run (quad_config dummy_cycles byte_order) env
                 (reset_regs c0) t) ->
  (k < 4)%nat ->
  sr (run (quad_config dummy_cycles byte_order) env (reset_regs c0) t) = 0 /\
  state (run (quad_config dummy_cycles byte_order) env (reset_regs c0)
           (S t + k)) = SEND_DATA /\
  dq_oe (comb (quad_config dummy_cycles byte_order)
           (run (quad_config dummy_cycles byte_order) env (reset_regs c0)
              (S t + k))
           (env (S t + k)%nat)) = true /\
  dq1_o (quad_config dummy_cycles byte_order)
    (run (quad_config dummy_cycles byte_order) env (reset_regs c0)
       (S t + k)) = 0 /\
  dq2_o (quad_config dummy_cycles byte_order)
    (run (quad_config dummy_cycles byte_order) env (reset_regs c0)
       (S t + k))
    (env (S t + k)%nat) = 0.
Proof.
  intros Hs Hp Hw Ha Hk.
  set (cfg := quad_config dummy_cycles byte_order) in *.
  pose proof (drained_run dummy_cycles byte_order env c0 t) as Hd.
  fold cfg in Hd. unfold drained in Hd. rewrite Hs in Hd.
  destruct Hd as (_ & Hc & Hz).
  assert (Hnext : run cfg env (reset_regs c0) (S t) =
                  Regs SEND_DATA 0
                    (is_write (run cfg env (reset_regs c0) t))
                    (trunc 32 (bus_adr (env t) + 1)) 0).
  { rewrite run_S, tick_WAIT_SEND_MORE, Hp, Hw, Ha, Z.eqb_refl
      by assumption.
    simpl. now rewrite Hc, Hz. }
  destruct (send_data_outputs dummy_cycles byte_order env (reset_regs c0)
              (S t) k) as (Hsk & H1 & H2);
    try (fold cfg; now rewrite Hnext); [lia|].
  fold cfg in Hsk, H1, H2.
  rewrite Hnext in H1, H2. cbn [sr] in H1, H2.
  rewrite slice_0 in H1, H2.
  rewrite dq_oe_comb, Hsk. auto.
Qed.

Lemma continued_write_sends_zeros_witness :
  sr (run (quad_config 5 "big") write_write_env (reset_regs 0) 19) = 0 /\
  state (run (quad_config 5 "big") write_write_env (reset_regs 0)
           (S 19 + 2)) = SEND_DATA /\
  dq_oe (comb (quad_config 5 "big")
           (run (quad_config 5 "big") write_write_env (reset_regs 0)
              (S 19 + 2))
           (write_write_env (S 19 + 2)%nat)) = true /\
  dq1_o (quad_config 5 "big")
    (run (quad_config 5 "big") write_write_env (reset_regs 0) (S 19 + 2)) =
    0 /\
  dq2_o (quad_config 5 "big")
    (run (quad_config 5 "big") write_write_env (reset_regs 0) (S 19 + 2))
    (write_write_env (S 19 + 2)%nat) = 0.
Proof.
  apply (continued_write_sends_zeros 5 "big" write_write_env 0 19 2).
  - vm_compute. reflexivity.
  - reflexivity.
  - reflexivity.
  - vm_compute. reflexivity.
  - lia.
Defined.

(** ** The length of a continued transaction *)

(** A read that continues a burst is acknowledged in the sixth cycle from
    the one in which it is seen: one cycle in [WAIT_RECV_MORE] and five in
    [RECV_DATA], against more than eighteen for a read from [IDLE]; the
    FSM is then waiting again, one address further. *)
Theorem continued_read_cycles
  (dummy_cycles : Z) (byte_order : string) (env : nat -> inputs) (c0 : Z)
  (t : nat) :
  state (run (quad_config dummy_cycles byte_order) env (reset_regs c0) t) =
    WAIT_RECV_MORE ->
  pending (env t) = true ->
  bus_we (env t) = false ->
  bus_adr (env t) =
    next_addr (run (quad_config dummy_cycles byte_order) env
                 (reset_regs c0) t) ->
  trace (quad_config dummy_cycles byte_order) env (reset_regs c0) t (5 + 1) =
    ((WAIT_RECV_MORE, false) :: repeat (RECV_DATA, false) 4) ++
    [(RECV_DATA, true)] /\
  cycles_to_ack (quad_config dummy_cycles byte_order) env (reset_regs c0)
    6 t = Some 6%nat /\
  (6 < read_cycles (quad_config dummy_cycles byte_order))%nat /\
  state (run (quad_config dummy_cycles byte_order) env (reset_regs c0)
           (t + 6)) = WAIT_RECV_MORE /\
  next_addr (run (quad_config dummy_cycles byte_order) env (reset_regs c0)
               (t + 6)) = trunc 32 (bus_adr (env t) + 1).
Proof.
  intros Hs Hp Hw Ha.
  set (cfg := quad_config dummy_cycles byte_order) in *.
  pose proof (steady_run cfg env c0 t) as Hc.
  unfold steady in Hc. rewrite Hs in Hc.
  assert (Hnext : run cfg env (reset_regs c0) (S t) =
                  Regs RECV_DATA 0
                    (is_write (run cfg env (reset_regs c0) t))
                    (trunc 32 (bus_adr (env t) + 1))
                    (sr (run cfg env (reset_regs c0) t))).
  { rewrite run_S, tick_WAIT_RECV_MORE, Hp, Hw, Ha, Z.eqb_refl
      by assumption.
    simpl. now rewrite Hc. }
  destruct (recv_data_phase dummy_cycles byte_order env (reset_regs c0)
              (S t) (trunc 32 (bus_adr (env t) + 1)))
    as (Tdata & Tack & Hs6 & _ & Hna6);
    try (fold cfg; now rewrite Hnext).
  fold cfg in Tdata, Tack, Hs6, Hna6.
  assert (Htrace : trace cfg env (reset_regs c0) t (5 + 1) =
            ((WAIT_RECV_MORE, false) :: repeat (RECV_DATA, false) 4) ++
            [(RECV_DATA, true)]).
  { change (5 + 1)%nat with (1 + (4 + 1))%nat.
    rewrite (trace_app _ _ _ t 1), (trace_app _ _ _ (t + 1) 4), !trace_one.
    replace (t + 1)%nat with (S t) by lia.
    rewrite (trace_repeat _ _ _ (S t) 4 (RECV_DATA, false)) by exact Tdata.
    rewrite Tack. unfold cfg in *. now rewrite observe_eq, Hs. }
  split; [exact Htrace|]. split; [|split; [|split]].
  - apply (cycles_to_ack_trace _ _ _ _ _ _ _ _ Htrace); [|lia].
    intros x [<-|Hx]; [reflexivity|].
    apply In_repeat_eq in Hx. now subst x.
  - unfold read_cycles, dummy_phase_cycles, recv_phase_cycles.
    change (Z.to_nat (command_cycles cfg)) with 8%nat.
    change (Z.to_nat (address_cycles cfg)) with 6%nat.
    change (Z.to_nat (data_cycles cfg + 1)) with 5%nat.
    lia.
  - replace (t + 6)%nat with (S t + 5)%nat by lia. exact Hs6.
  - replace (t + 6)%nat with (S t + 5)%nat by lia. exact Hna6.
Qed.

Lemma continued_read_cycles_witness :
  trace (quad_config 5 "big") read_read_env (reset_regs 0) 26 (5 + 1) =
    ((WAIT_RECV_MORE, false) :: repeat (RECV_DATA, false) 4) ++
    [(RECV_DATA, true)] /\
  cycles_to_ack (quad_config 5 "big") read_read_env (reset_regs 0) 6 26 =
    Some 6%nat /\
  (6 < read_cycles (quad_config 5 "big"))%nat /\
  state (run (quad_config 5 "big") read_read_env (reset_regs 0) (26 + 6)) =
    WAIT_RECV_MORE /\
  next_addr (run (quad_config 5 "big") read_read_env (reset_regs 0)
               (26 + 6)) = trunc 32 (bus_adr (read_read_env 26) + 1).
Proof.
  apply (continued_read_cycles 5 "big" read_read_env 0 26).
  - vm_compute. reflexivity.
  - reflexivity.
  - reflexivity.
  - vm_compute. reflexivity.
Defined.

(** A write that continues a burst is acknowledged in the fifth cycle from
    the one in which it is seen: one cycle in [WAIT_SEND_MORE] and four in
    [SEND_DATA]; the FSM is then waiting again, one address further. *)
Theorem continued_write_cycles
  (dummy_cycles : Z) (byte_order : string) (env : nat -> inputs) (c0 : Z)
  (t : nat) :
  state (run (quad_config dummy_cycles byte_order) env (reset_regs c0) t) =
    WAIT_SEND_MORE ->
  pending (env t) = true ->
  bus_we (env t) = true ->
  bus_adr (env t) =
    next_addr (run (quad_config dummy_cycles byte_order) env
                 (reset_regs c0) t) ->
  trace (quad_config dummy_cycles byte_order) env (reset_regs c0) t (4 + 1) =
    ((WAIT_SEND_MORE, false) :: repeat (SEND_DATA, false) 3) ++
    [(SEND_DATA, true)] /\
  cycles_to_ack (quad_config dummy_cycles byte_order) env (reset_regs c0)
    5 t = Some 5%nat /\
  state (run (quad_config dummy_cycles byte_order) env (reset_regs c0)
           (t + 5)) = WAIT_SEND_MORE /\
  next_addr (run (quad_config dummy_cycles byte_order) env (reset_regs c0)
               (t + 5)) = trunc 32 (bus_adr (env t) + 1).
Proof.
  intros Hs Hp Hw Ha.
  set (cfg := quad_config dummy_cycles byte_order) in *.
  pose proof (steady_run cfg env c0 t) as Hc.
  unfold steady in Hc. rewrite Hs in Hc.
  assert (Hnext : run cfg env (reset_regs c0) (S t) =
                  Regs SEND_DATA 0
                    (is_write (run cfg env (reset_regs c0) t))
                    (trunc 32 (bus_adr (env t) + 1))
                    (sr (run cfg env (reset_regs c0) t))).
  { rewrite run_S, tick_WAIT_SEND_MORE, Hp, Hw, Ha, Z.eqb_refl
      by assumption.
    simpl. now rewrite Hc. }
  destruct (send_data_phase dummy_cycles byte_order env (reset_regs c0)
              (S t) (trunc 32 (bus_adr (env t) + 1)))
    as (Tdata & Tack & Hs5 & _ & Hna5);
    try (fold cfg; now rewrite Hnext).
  fold cfg in Tdata, Tack, Hs5, Hna5.
  assert (Htrace : trace cfg env (reset_regs c0) t (4 + 1) =
            ((WAIT_SEND_MORE, false) :: repeat (SEND_DATA, false) 3) ++
            [(SEND_DATA, true)]).
  { change (4 + 1)%nat with (1 + (3 + 1))%nat.
    rewrite (trace_app _ _ _ t 1), (trace_app _ _ _ (t + 1) 3), !trace_one.
    replace (t + 1)%nat with (S t) by lia.
    rewrite (trace_repeat _ _ _ (S t) 3 (SEND_DATA, false)) by exact Tdata.
    rewrite Tack. unfold cfg in *. now rewrite observe_eq, Hs. }
  split; [exact Htrace|]. split; [|split].
  - apply (cycles_to_ack_trace _ _ _ _ _ _ _ _ Htrace); [|lia].
    intros x [<-|Hx]; [reflexivity|].
    apply In_repeat_eq in Hx. now subst x.
  - replace (t + 5)%nat with (S t + 4)%nat by lia. exact Hs5.
  - replace (t + 5)%nat with (S t + 4)%nat by lia. exact Hna5.
Qed.

Lemma continued_write_cycles_witness :
  trace (quad_config 5 "big") write_write_env (reset_regs 0) 19 (4 + 1) =
    ((WAIT_SEND_MORE, false) :: repeat (SEND_DATA, false) 3) ++
    [(SEND_DATA, true)] /\
  cycles_to_ack (quad_config 5 "big") write_write_env (reset_regs 0) 5 19 =
    Some 5%nat /\
  state (run (quad_config 5 "big") write_write_env (reset_regs 0) (19 + 5)) =
    WAIT_SEND_MORE /\
  next_addr (run (quad_config 5 "big") write_write_env (reset_regs 0)
               (19 + 5)) = trunc 32 (bus_adr (write_write_env 19) + 1).
Proof.
  apply (continued_write_cycles 5 "big" write_write_env 0 19).
  - vm_compute. reflexivity.
  - reflexivity.
  - reflexivity.
  - vm_compute. reflexivity.
Defined.

(** ** A write from [IDLE] *)

(** A write accepted in [IDLE] spends 8 cycles in [SEND_CMD], 6 in
    [SEND_ADDR] and 4 in [SEND_DATA], is acknowledged in the last of these
    18 cycles and in no other, and leaves the FSM in [WAIT_SEND_MORE]
    expecting the next address. *)
Theorem write_transaction_cycles
  (dummy_cycles : Z) (byte_order : string) (env : nat -> inputs) (r0 : regs) :
  state r0 = IDLE ->
  pending (env 0%nat) = true ->
  bus_we (env 8%nat) = true ->
  trace (quad_config dummy_cycles byte_order) env r0 1 (17 + 1) =
    (repeat (SEND_CMD, false) 8 ++ repeat (SEND_ADDR, false) 6 ++
     repeat (SEND_DATA, false) 3) ++ [(SEND_DATA, true)] /\
  cycles_to_ack (quad_config dummy_cycles byte_order) env r0 18 1 =
    Some 18%nat /\
  state (run (quad_config dummy_cycles byte_order) env r0 19) =
    WAIT_SEND_MORE /\
  next_addr (run (quad_config dummy_cycles byte_order) env r0 19) =
    trunc 32 (bus_adr (env 8%nat) + 1).
Proof.
  intros Hidle Hp Hwe.
  destruct (write_from_idle dummy_cycles byte_order env r0 Hidle Hp Hwe)
    as (Ht & Hs & _ & Hna).
  assert (Htrace :
            trace (quad_config dummy_cycles byte_order) env r0 1 (17 + 1) =
            (repeat (SEND_CMD, false) 8 ++ repeat (SEND_ADDR, false) 6 ++
             repeat (SEND_DATA, false) 3) ++ [(SEND_DATA, true)]).
  { change (17 + 1)%nat with (8 + (6 + (3 + 1)))%nat.
    rewrite Ht. now rewrite <- !app_assoc. }
  split; [exact Htrace|]. split; [|split; assumption].
  apply (cycles_to_ack_trace _ _ _ _ _ _ _ _ Htrace); [|lia].
  intros x Hx.
  repeat (apply in_app_or in Hx; destruct Hx as [Hx|Hx]);
    apply In_repeat_eq in Hx; now subst x.
Qed.

Lemma write_transaction_cycles_witness :
  trace (quad_config 5 "big") (write_env 7 0x12345678) (reset_regs 0) 1
    (17 + 1) =
    (repeat (SEND_CMD, false) 8 ++ repeat (SEND_ADDR, false) 6 ++
     repeat (SEND_DATA, false) 3) ++ [(SEND_DATA, true)] /\
  cycles_to_ack (quad_config 5 "big") (write_env 7 0x12345678)
    (reset_regs 0) 18 1 = Some 18%nat /\
  state (run (quad_config 5 "big") (write_env 7 0x12345678)
           (reset_regs 0) 19) = WAIT_SEND_MORE /\
  next_addr (run (quad_config 5 "big") (write_env 7 0x12345678)
               (reset_regs 0) 19) =
    trunc 32 (bus_adr (write_env 7 0x12345678 8%nat) + 1).
Proof.
  apply (write_transaction_cycles 5 "big" (write_env 7 0x12345678)
           (reset_regs 0)); reflexivity.
Defined.



(** ** The continuation test *)

(** After a transaction at address [a], a pending request continues the
    burst exactly when it has the direction of that transaction and the
    address [a + 1]; nothing wraps around, so no request continues a burst
    past the last word address. *)
Theorem continuation_exact
  (cfg : config) (r : regs) (i : inputs) (write : bool) (a : Z) :
  state r = wait_more write ->
  next_addr r = trunc 32 (a + 1) ->
  0 <= a < 2 ^ wishbone_adr_width ->
  0 <= bus_adr i < 2 ^ wishbone_adr_width ->
  pending i = true ->
  (state (tick cfg r i) = (if write then SEND_DATA else RECV_DATA) <->
   bus_we i = write /\ bus_adr i = a + 1) /\
  (state (tick cfg r i) = IDLE <->
   ~ (bus_we i = write /\ bus_adr i = a + 1)) /\
  (a = 2 ^ wishbone_adr_width - 1 -> state (tick cfg r i) = IDLE).
Proof.
  intros Hs Hna Ha Hi Hp.
  unfold wishbone_adr_width in *.
  rewrite trunc_small in Hna by lia.
  assert (Hcases :
            (bus_we i = write /\ bus_adr i = a + 1) /\
            state (tick cfg r i) = (if write then SEND_DATA else RECV_DATA)
            \/
            ~ (bus_we i = write /\ bus_adr i = a + 1) /\
            state (tick cfg r i) = IDLE).
  { destruct write; simpl in Hs.
    - rewrite tick_WAIT_SEND_MORE, Hp, Hna by assumption.
      destruct (Z.eqb_spec (bus_adr i) (a + 1)), (bus_we i); simpl;
        (left; split; [split|]; (reflexivity || assumption)) ||
        (right; split; [intros [? ?]; (discriminate || contradiction)
                       |reflexivity]).
    - rewrite tick_WAIT_RECV_MORE, Hp, Hna by assumption.
      destruct (Z.eqb_spec (bus_adr i) (a + 1)), (bus_we i); simpl;
        (left; split; [split|]; (reflexivity || assumption)) ||
        (right; split; [intros [? ?]; (discriminate || contradiction)
                       |reflexivity]). }
  split; [|split].
  - destruct Hcases as [[Hc Hst]|[Hc Hst]]; rewrite Hst; split; auto.
    + destruct write; discriminate.
    + tauto.
  - destruct Hcases as [[Hc Hst]|[Hc Hst]]; rewrite Hst; split; auto.
    + destruct write; discriminate.
    + tauto.
  - intros ->.
    destruct Hcases as [[[_ Hc] _]|[_ Hst]]; [lia|exact Hst].
Qed.

Lemma continuation_exact_witness :
  (state (tick (quad_config 5 "big") (Regs WAIT_RECV_MORE 0 false 8 0)
            (request false 8 0)) = RECV_DATA <->
   bus_we (request false 8 0) = false /\ bus_adr (request false 8 0) = 7 + 1)
  /\
  (state (tick (quad_config 5 "big") (Regs WAIT_RECV_MORE 0 false 8 0)
            (request false 8 0)) = IDLE <->
   ~ (bus_we (request false 8 0) = false /\
      bus_adr (request false 8 0) = 7 + 1)) /\
  (7 = 2 ^ wishbone_adr_width - 1 ->
   state (tick (quad_config 5 "big") (Regs WAIT_RECV_MORE 0 false 8 0)
            (request false 8 0)) = IDLE).
Proof.
  apply (continuation_exact (quad_config 5 "big")
           (Regs WAIT_RECV_MORE 0 false 8 0) (request false 8 0) false 7).
  - reflexivity.
  - reflexivity.
  - unfold wishbone_adr_width. lia.
  - unfold wishbone_adr_width. simpl. lia.
  - reflexivity.
Defined.
